(** * Dance Verify: the payment gate and the verification operations

    A shallow embedding of [src/index.js]: the x402 payment middleware
    ([createPaymentRequired], [verifyPayment], [x402Middleware]), the helpers
    ([generateReceipt], [validateStyle]) and the route handlers, followed by
    the properties the design document states about them.

    Conventions.
    - A JavaScript value is a [JSValue]; a Number is an IEEE 754 binary64
      value, represented by the Standard Library's [spec_float] and computed
      with its correctly rounded operations.
    - A JavaScript string is a [string]. What the built-ins [toLowerCase] and
      [trim] do outside ASCII, and what [JSON.parse] returns, is supplied by
      the [Host] interface together with the laws the theorems rely on.
    - An expression that can throw evaluates to a [Completion].
    - The two process-wide maps ([payments], [receipts]) are threaded
      explicitly as a [State]; the clock and the UUID generator are read from
      the [Env] that comes with each request. *)

From Stdlib Require Import ZArith String Ascii List Bool Lia.
From Stdlib Require Import Floats.SpecFloat.
From Stdlib Require Import DecimalString.
From stdpp Require Import gmap strings.

Import ListNotations.
Local Open Scope string_scope.
Local Open Scope Z_scope.

(* ===================================================================== *)
(** ** Numbers *)
(* ===================================================================== *)

Module Number.

(** binary64 *)
Definition prec : Z := 53.
Definition emax : Z := 1024.

(** The Number nearest to an integer (exact below 2^53). *)
Definition of_Z (z : Z) : spec_float := binary_normalize prec emax z 0 false.

Definition of_nat (n : nat) : spec_float := of_Z (Z.of_nat n).

Definition mul : spec_float -> spec_float -> spec_float := SFmul prec emax.

Definition div : spec_float -> spec_float -> spec_float := SFdiv prec emax.

(** The decimal literal [m]e-[k], as the source text writes it: the Number
    nearest to [m / 10^k] (for [m] below 2^53 and [k] at most 22, where
    both operands of the correctly rounded division are exact). *)
Definition decimal (m : Z) (k : nat) : spec_float :=
  div (of_Z m) (of_Z (10 ^ Z.of_nat k)).

(** [ToBoolean]: +0, -0 and NaN are falsy. *)
Definition truthy (x : spec_float) : bool :=
  match x with
  | S754_zero _ | S754_nan => false
  | _ => true
  end.

(** [SameValueZero] on Numbers: IEEE equality, except that NaN equals NaN. *)
Definition same_value_zero (x y : spec_float) : bool :=
  match x, y with
  | S754_nan, S754_nan => true
  | _, _ => SFeqb x y
  end.

(** The integer part used by [Math.floor]: the greatest integer not above
    [m * 2^e], with the sign applied. *)
Definition floor_Z (s : bool) (m : positive) (e : Z) : Z :=
  let n := if s then Z.neg m else Z.pos m in
  if 0 <=? e then n * 2 ^ e else n / 2 ^ (- e).

(** [String(Math.floor(x))]. [Math.floor] keeps NaN, the infinities and the
    zeros; [String] prints an integer below 1e21 in plain decimal digits
    (larger magnitudes, which print with an exponent, do not arise from the
    pricing table). *)
Definition String_of_floor (x : spec_float) : string :=
  match x with
  | S754_nan => "NaN"
  | S754_infinity false => "Infinity"
  | S754_infinity true => "-Infinity"
  | S754_zero _ => "0"
  | S754_finite s m e => NilZero.string_of_int (Z.to_int (floor_Z s m e))
  end.

End Number.

(* ===================================================================== *)
(** ** Strings *)
(* ===================================================================== *)

(** A string is held as the bytes of its UTF-8 encoding. *)
Module Str.

Definition code (c : ascii) : nat := nat_of_ascii c.

(** [s.length], the number of UTF-16 code units of the string: a byte that
    starts a character of one, two or three bytes stands for one unit, a
    byte that starts a character of four bytes for two units (a surrogate
    pair), and a continuation byte for none. *)
Fixpoint utf16_length (s : string) : nat :=
  match s with
  | EmptyString => O
  | String c r =>
      ((if Nat.ltb (code c) 128 then 1
        else if Nat.ltb (code c) 192 then 0
        else if Nat.ltb (code c) 240 then 1
        else 2) + utf16_length r)%nat
  end.

Definition is_ascii_char (c : ascii) : bool := Nat.ltb (code c) 128.

Fixpoint is_ascii (s : string) : bool :=
  match s with
  | EmptyString => true
  | String c r => is_ascii_char c && is_ascii r
  end.

(** A-Z to a-z. *)
Definition lower_char (c : ascii) : ascii :=
  if Nat.leb 65 (code c) && Nat.leb (code c) 90
  then ascii_of_nat (code c + 32) else c.

Fixpoint ascii_lower (s : string) : string :=
  match s with
  | EmptyString => EmptyString
  | String c r => String (lower_char c) (ascii_lower r)
  end.

(** The ASCII members of WhiteSpace and LineTerminator: TAB, LF, VT, FF,
    CR and SP. *)
Definition is_space (c : ascii) : bool :=
  (Nat.leb 9 (code c) && Nat.leb (code c) 13) || Nat.eqb (code c) 32.

Fixpoint trim_start (s : string) : string :=
  match s with
  | EmptyString => EmptyString
  | String c r => if is_space c then trim_start r else s
  end.

Fixpoint trim_end (s : string) : string :=
  match s with
  | EmptyString => EmptyString
  | String c r =>
      match trim_end r with
      | EmptyString => if is_space c then EmptyString else String c EmptyString
      | r' => String c r'
      end
  end.

Definition ascii_trim (s : string) : string := trim_end (trim_start s).

(** [s.replace(/-/g, '')] *)
Fixpoint remove_dashes (s : string) : string :=
  match s with
  | EmptyString => EmptyString
  | String c r => if Ascii.eqb c "-" then remove_dashes r else String c (remove_dashes r)
  end.

(** [s.slice(0, n)], for a string of ASCII characters, as a UUID is: one
    byte for each code unit. *)
Definition slice0 (n : nat) (s : string) : string := substring 0 n s.

Definition nonempty (s : string) : bool := negb (String.eqb s "").

End Str.

(* ===================================================================== *)
(** ** JavaScript values *)
(* ===================================================================== *)

(** The values that reach this program: what [JSON.parse] and the body
    parser produce, [undefined], and the literals of the source. An object
    is the list of its own properties. *)
#[local] Unset Elimination Schemes.
Inductive JSValue : Type :=
| JUndefined
| JNull
| JBool (b : bool)
| JNum (x : spec_float)
| JStr (s : string)
| JArr (items : list JSValue)
| JObj (props : list (string * JSValue)).
#[local] Set Elimination Schemes.

(** Evaluation of an expression: a value, or a thrown [TypeError]. *)
Inductive Completion (A : Type) : Type :=
| Normal (a : A)
| Throw.

Arguments Normal {A} a.
Arguments Throw {A}.

Definition bind {A B : Type} (c : Completion A) (k : A -> Completion B) : Completion B :=
  match c with
  | Normal a => k a
  | Throw => Throw
  end.

Notation "'let*' x ':=' c 'in' k" := (bind c (fun x => k))
  (at level 10, x name, c at level 100, k at level 200).

Module JS.

(** [ToBoolean] *)
Definition truthy (v : JSValue) : bool :=
  match v with
  | JUndefined | JNull => false
  | JBool b => b
  | JNum x => Number.truthy x
  | JStr s => Str.nonempty s
  | JArr _ | JObj _ => true
  end.

(** [a || b] *)
Definition or (a b : JSValue) : JSValue := if truthy a then a else b.

(** [SameValueZero], the key equality of [Map] and of [Array.prototype.includes].
    Two primitives are compared by value. An array or object is compared by
    identity: every [JSON.parse] allocates its result afresh, so an object
    presented in a request is never the object stored by an earlier
    request. *)
Definition same_value_zero (a b : JSValue) : bool :=
  match a, b with
  | JUndefined, JUndefined => true
  | JNull, JNull => true
  | JBool x, JBool y => Bool.eqb x y
  | JNum x, JNum y => Number.same_value_zero x y
  | JStr x, JStr y => String.eqb x y
  | _, _ => false
  end.

Fixpoint own (k : string) (props : list (string * JSValue)) : JSValue :=
  match props with
  | [] => JUndefined
  | (k', v) :: rest => if String.eqb k' k then v else own k rest
  end.

(** [v.k], for the property names the source reads: [txHash], [signature],
    [length] and the body fields, none of which is inherited from a
    prototype. Reading a property of [undefined] or [null] throws; a string
    and an array have a [length], for a string the number of its UTF-16
    code units; otherwise only an object's own properties are found. *)
Definition get (v : JSValue) (k : string) : Completion JSValue :=
  match v with
  | JUndefined | JNull => Throw
  | JObj props => Normal (own k props)
  | JArr items =>
      Normal (if String.eqb k "length" then JNum (Number.of_nat (List.length items))
              else JUndefined)
  | JStr s =>
      Normal (if String.eqb k "length" then JNum (Number.of_nat (Str.utf16_length s))
              else JUndefined)
  | JBool _ | JNum _ => Normal JUndefined
  end.

(** [v?.k] *)
Definition get_opt (v : JSValue) (k : string) : JSValue :=
  match get v k with
  | Normal x => x
  | Throw => JUndefined
  end.

End JS.

(* ===================================================================== *)
(** ** The host *)
(* ===================================================================== *)

(** What Node.js and the process environment supply. [JSON_parse] returns
    [None] where [JSON.parse] throws a [SyntaxError]. The laws are the
    facts about the built-ins that the proofs use: the empty text is not
    JSON, and on ASCII strings [toLowerCase] and [trim] are the ASCII
    functions above. *)
Class Host : Type := {
  JSON_parse : string -> option JSValue;
  toLowerCase : string -> string;
  trim : string -> string;
  WALLET_ADDRESS : string;
  JSON_parse_empty : JSON_parse "" = None;
  toLowerCase_ascii : forall s, Str.is_ascii s = true -> toLowerCase s = Str.ascii_lower s;
  trim_ascii : forall s, Str.is_ascii s = true -> trim s = Str.ascii_trim s
}.

(* ===================================================================== *)
(** ** The service *)
(* ===================================================================== *)

(** [payment] of the 402 response and of the [x-402-payment] response
    header (which carries the same object as JSON text). *)
Record PaymentInfo : Type := {
  scheme : string;
  network : string;
  chainId : Z;
  payee : string;
  token : string;
  amount : string;
  description : string;
  resource : string;
  mimeType : string
}.

(** The argument of [generateReceipt]. *)
Record ReceiptData : Type := {
  data_type : string;
  data_request : JSValue;
  data_result : JSValue;
  data_price_paid : string
}.

(** A receipt. [isoTime], the ISO 8601 rendering of [timestamp], is not
    represented. *)
Record Receipt : Type := {
  receipt_id : string;
  receipt_version : string;
  receipt_service : string;
  receipt_timestamp : Z;
  receipt_chain : string;
  receipt_chainId : Z;
  receipt_verifier : string;
  receipt_type : string;
  receipt_request : JSValue;
  receipt_result : JSValue;
  receipt_price_paid : string;
  receipt_verification_level : string;
  receipt_note : string
}.

(** The in-memory storage: [payments] maps a used transaction hash to the
    time of its use, in insertion order; [receipts] maps an id to its
    receipt. *)
Record State : Type := {
  payments : list (JSValue * Z);
  receipts : gmap string Receipt
}.

Definition initial_state : State := {| payments := []; receipts := ∅ |}.

(** What the clock and the UUID generator return while one request is
    served: [Date.now()] in [verifyPayment] and in [generateReceipt], and the
    results of [uuidv4()] in call order. *)
Record Env : Type := {
  now_gate : Z;
  now_mint : Z;
  uuid1 : string;
  uuid2 : string
}.

Inductive Response : Type :=
| Descriptor                                              (* 200, GET / *)
| Styles (styles : list string) (count : nat)             (* 200, GET /styles *)
| Health (receipts_issued : nat)                          (* 200, GET /health *)
| Ok (r : Receipt)                                        (* 200 *)
| BadRequest (message : string)                           (* 400, error: Bad Request *)
| InvalidStyle (style : JSValue) (valid_styles : list string) (* 400, error: Invalid Style *)
| PaymentRequired (payment : PaymentInfo)                 (* 402, error: Payment Required *)
| PaymentInvalid                                          (* 402, error: Invalid Payment *)
| NotFound                                                (* 404 *)
| ServerError.                                            (* 500, an uncaught TypeError *)

(** What the middleware does with a request. *)
Inductive Gate : Type :=
| Reject (r : Response)
| Next.

Inductive Route : Type :=
| GetRoot
| GetStyles
| GetHealth
| GetReceipt (id : string)
| PostVerifyMove
| PostVerifyVideo
| PostVerifyChoreography
| PostVerifyAttribution.

(** A request: [header] is [req.headers['x-402-payment']] ([None] for
    [undefined]), [body] is [req.body]. *)
Record Request : Type := {
  route : Route;
  header : option string;
  body : JSValue;
  env : Env
}.

Section Service.

Context `{Host}.

(* ------------------------------------------------------------------- *)
(** *** Configuration *)

Definition CHAIN_ID : Z := 84532.

Definition USDC_ADDRESS : string := "0x036CbD53842c5426634e7929541eC2318f3dCF7e".

(** Pricing in USDC (6 decimals). *)
Definition PRICES : list (string * spec_float) :=
  [ ("verify/move", Number.decimal 1 3);
    ("verify/video", Number.decimal 1 2);
    ("verify/choreography", Number.decimal 5 2);
    ("verify/attribution", Number.decimal 5 3) ].

Definition DANCE_STYLES : list string :=
  [ "krump"; "breaking"; "hip-hop"; "popping"; "locking";
    "house"; "waacking"; "afro"; "kpop"; "ballet";
    "contemporary"; "jazz"; "tap"; "salsa"; "voguing";
    "dancehall"; "reggaeton"; "twerk"; "shuffle"; "other" ].

(** The names an object literal such as [PRICES] or [knownMoves] inherits
    from [Object.prototype]; each is bound to a function or an object, which
    is truthy, is not a number and has no [creator]. *)
Definition Object_prototype_names : list string :=
  [ "constructor"; "__defineGetter__"; "__defineSetter__"; "hasOwnProperty";
    "__lookupGetter__"; "__lookupSetter__"; "isPrototypeOf";
    "propertyIsEnumerable"; "toString"; "valueOf"; "__proto__"; "toLocaleString" ].

(** The own entry of [PRICES] under [endpoint], if there is one. *)
Fixpoint price_of (endpoint : string) (table : list (string * spec_float))
  : option spec_float :=
  match table with
  | [] => None
  | (k, p) :: rest => if String.eqb k endpoint then Some p else price_of endpoint rest
  end.

(* ------------------------------------------------------------------- *)
(** *** x402 payment middleware *)

(** [price] is [PRICES[endpoint] || 0.001] as a Number. On a name that
    [PRICES] inherits, the lookup finds a function or an object: it is
    truthy, so it is kept, and as a Number it is NaN. *)
Definition createPaymentRequired (endpoint : string) : PaymentInfo :=
  let price :=
    match price_of endpoint PRICES with
    | Some p => if Number.truthy p then p else Number.decimal 1 3
    | None =>
        if existsb (String.eqb endpoint) Object_prototype_names
        then S754_nan
        else Number.decimal 1 3
    end in
  {| scheme := "exact";
     network := "base-sepolia";
     chainId := CHAIN_ID;
     payee := WALLET_ADDRESS;
     token := USDC_ADDRESS;
     amount := Number.String_of_floor (Number.mul price (Number.of_Z 1000000));
     description := "Dance Verify: " ++ endpoint;
     resource := "/" ++ endpoint;
     mimeType := "application/json" |}.

(** [payments.has(key)] *)
Definition payments_has (key : JSValue) (m : list (JSValue * Z)) : bool :=
  existsb (fun entry => JS.same_value_zero (fst entry) key) m.

(** [payments.set(key, { usedAt })]: the entry of an equal key is
    replaced in place, a new key is appended. *)
Fixpoint payments_set (key : JSValue) (usedAt : Z) (m : list (JSValue * Z))
  : list (JSValue * Z) :=
  match m with
  | [] => [(key, usedAt)]
  | (k, v) :: rest =>
      if JS.same_value_zero k key then (k, usedAt) :: rest
      else (k, v) :: payments_set key usedAt rest
  end.

(** [!paymentHeader]: the header is missing or empty. *)
Definition header_missing (paymentHeader : option string) : bool :=
  match paymentHeader with
  | None => true
  | Some h => negb (Str.nonempty h)
  end.

(** The body of the [try] block of [verifyPayment]: it returns, or throws
    a [TypeError] when the parsed text is [null]. *)
Definition check_payment (payment : JSValue) (now : Z) (m : list (JSValue * Z))
  : Completion (bool * list (JSValue * Z)) :=
  let* txHash := JS.get payment "txHash" in
  let* signature := JS.get payment "signature" in
  if negb (JS.truthy txHash) && negb (JS.truthy signature) then Normal (false, m)
  else if JS.truthy txHash && payments_has txHash m then Normal (false, m)
  else if JS.truthy txHash then Normal (true, payments_set txHash now m)
  else Normal (true, m).

Definition verifyPayment (paymentHeader : option string) (now : Z) (m : list (JSValue * Z))
  : bool * list (JSValue * Z) :=
  if header_missing paymentHeader then (false, m)
  else
    match paymentHeader with
    | None => (false, m)
    | Some h =>
        match JSON_parse h with
        | None => (false, m)                      (* SyntaxError, caught *)
        | Some payment =>
            match check_payment payment now m with
            | Normal r => r
            | Throw => (false, m)                 (* TypeError, caught *)
            end
        end
    end.

Definition x402Middleware (endpoint : string) (paymentHeader : option string)
    (now : Z) (m : list (JSValue * Z)) : Gate * list (JSValue * Z) :=
  if header_missing paymentHeader
  then (Reject (PaymentRequired (createPaymentRequired endpoint)), m)
  else
    let '(isValid, m') := verifyPayment paymentHeader now m in
    if negb isValid then (Reject PaymentInvalid, m')
    else (Next, m').

(* ------------------------------------------------------------------- *)
(** *** Helper functions *)

Definition generateReceipt (uuid : string) (timestamp : Z) (data : ReceiptData)
    (store : gmap string Receipt) : Receipt * gmap string Receipt :=
  let receiptId := "dv_" ++ Str.slice0 16 (Str.remove_dashes uuid) in
  let receipt :=
    {| receipt_id := receiptId;
       receipt_version := "1.0";
       receipt_service := "Dance Verify";
       receipt_timestamp := timestamp;
       receipt_chain := "base-sepolia";
       receipt_chainId := CHAIN_ID;
       receipt_verifier := WALLET_ADDRESS;
       receipt_type := data_type data;
       receipt_request := data_request data;
       receipt_result := data_result data;
       receipt_price_paid := data_price_paid data;
       receipt_verification_level := "basic";
       receipt_note := "Claim recorded. Advanced AI verification coming Q2 2026." |} in
  (receipt, <[receiptId := receipt]> store).

(** [DANCE_STYLES.includes(v)] *)
Definition includes (styles : list string) (v : JSValue) : bool :=
  existsb (fun d => JS.same_value_zero (JStr d) v) styles.

(** [style?.toLowerCase().trim()] short-circuits to [undefined] on
    [undefined] and [null], and throws on a value that has no
    [toLowerCase] method. *)
Definition validateStyle (style : JSValue) : Completion JSValue :=
  let* normalized :=
    match style with
    | JUndefined | JNull => Normal JUndefined
    | JStr s => Normal (JStr (trim (toLowerCase s)))
    | _ => Throw
    end in
  Normal (if includes DANCE_STYLES normalized then normalized else JNull).

(* ------------------------------------------------------------------- *)
(** *** Routes *)

(** [validStyle === 'krump'] and the like. *)
Definition is_string (v : JSValue) (s : string) : bool :=
  match v with
  | JStr x => String.eqb x s
  | _ => false
  end.

(** [v.toLowerCase()] on a truthy value: only a string has the method. *)
Definition call_toLowerCase (v : JSValue) : Completion string :=
  match v with
  | JStr s => Normal (toLowerCase s)
  | _ => Throw
  end.

(** [style ? validateStyle(style) : 'other'] *)
Definition style_or_other (style : JSValue) : Completion JSValue :=
  if JS.truthy style then validateStyle style else Normal (JStr "other").

(** POST /verify/move, after the middleware. [PRICES['verify/move']]
    prints as 0.001. *)
Definition post_verify_move (e : Env) (body : JSValue) (store : gmap string Receipt)
  : Completion (Response * gmap string Receipt) :=
  let* style := JS.get body "style" in
  let* move_name := JS.get body "move_name" in
  let* claimed_creator := JS.get body "claimed_creator" in
  let* description := JS.get body "description" in
  let* video_url := JS.get body "video_url" in
  if negb (JS.truthy style) || negb (JS.truthy move_name)
  then Normal (BadRequest "Required fields: style, move_name", store)
  else
    let* validStyle := validateStyle style in
    if negb (JS.truthy validStyle)
    then Normal (InvalidStyle style DANCE_STYLES, store)
    else
      let '(receipt, store') :=
        generateReceipt (uuid1 e) (now_mint e)
          {| data_type := "move_verification";
             data_request := JObj
               [ ("style", validStyle);
                 ("move_name", move_name);
                 ("claimed_creator", JS.or claimed_creator (JStr "unknown"));
                 ("description", JS.or description JNull);
                 ("video_url", JS.or video_url JNull) ];
             data_result := JObj
               [ ("status", JStr "recorded");
                 ("style_valid", JBool true);
                 ("confidence", JNum (Number.decimal 7 1));
                 ("attribution",
                   if JS.truthy claimed_creator
                   then JObj [ ("claimed", claimed_creator);
                               ("verified", JBool false);
                               ("note", JStr "Attribution verification requires advanced tier") ]
                   else JNull) ];
             data_price_paid := "0.001 USDC" |} store in
      Normal (Ok receipt, store').

(** POST /verify/video, after the middleware. The UUID of [content_hash]
    is drawn while the argument is built, before the one of the id. *)
Definition post_verify_video (e : Env) (body : JSValue) (store : gmap string Receipt)
  : Completion (Response * gmap string Receipt) :=
  let* style := JS.get body "style" in
  let* video_url := JS.get body "video_url" in
  let* title := JS.get body "title" in
  let* claimed_creators := JS.get body "claimed_creators" in
  let* description := JS.get body "description" in
  if negb (JS.truthy video_url)
  then Normal (BadRequest "Required field: video_url", store)
  else
    let* validStyle := style_or_other style in
    let '(receipt, store') :=
      generateReceipt (uuid2 e) (now_mint e)
        {| data_type := "video_verification";
           data_request := JObj
             [ ("style", validStyle);
               ("video_url", video_url);
               ("title", JS.or title JNull);
               ("claimed_creators", JS.or claimed_creators (JArr []));
               ("description", JS.or description JNull) ];
           data_result := JObj
             [ ("status", JStr "recorded");
               ("video_accessible", JBool true);
               ("content_hash",
                 JStr ("sha256_" ++ Str.slice0 32 (Str.remove_dashes (uuid1 e))));
               ("style_detected", validStyle);
               ("confidence", JNum (Number.decimal 65 2));
               ("note", JStr "Full video analysis requires advanced tier with AI processing") ];
           data_price_paid := "0.01 USDC" |} store in
    Normal (Ok receipt, store').

(** POST /verify/choreography, after the middleware. *)
Definition post_verify_choreography (e : Env) (body : JSValue) (store : gmap string Receipt)
  : Completion (Response * gmap string Receipt) :=
  let* style := JS.get body "style" in
  let* video_url := JS.get body "video_url" in
  let* title := JS.get body "title" in
  let* choreographer := JS.get body "choreographer" in
  let* moves := JS.get body "moves" in
  let* duration_seconds := JS.get body "duration_seconds" in
  if negb (JS.truthy video_url) && negb (JS.truthy moves)
  then Normal (BadRequest "Required: video_url or moves array", store)
  else
    let* validStyle := style_or_other style in
    let '(receipt, store') :=
      generateReceipt (uuid1 e) (now_mint e)
        {| data_type := "choreography_verification";
           data_request := JObj
             [ ("style", validStyle);
               ("video_url", JS.or video_url JNull);
               ("title", JS.or title JNull);
               ("choreographer", JS.or choreographer (JStr "unknown"));
               ("moves", JS.or moves (JArr []));
               ("duration_seconds", JS.or duration_seconds JNull) ];
           data_result := JObj
             [ ("status", JStr "recorded");
               ("move_count", JS.or (JS.get_opt moves "length") (JStr "pending_analysis"));
               ("style_consistency", JNum (Number.decimal 8 1));
               ("originality_score", JNum (Number.decimal 6 1));
               ("choreographer_verified", JBool false);
               ("note", JStr "Full choreography breakdown requires advanced AI analysis") ];
           data_price_paid := "0.05 USDC" |} store in
    Normal (Ok receipt, store').

(** Krump-specific knowledge: move name to creator and era. *)
Definition knownMoves : list (string * (string * string)) :=
  [ ("chest pop", ("Tight Eyez", "2000-2004"));
    ("arm swing", ("Tight Eyez", "2000-2004"));
    ("stomp", ("Big Mijo", "2000-2004"));
    ("buck", ("Community", "2004-2008"));
    ("kill off", ("Various", "2005+"));
    ("jab", ("Community", "2002+")) ].

Fixpoint own_move (name : string) (table : list (string * (string * string)))
  : option (string * string) :=
  match table with
  | [] => None
  | (k, r) :: rest => if String.eqb k name then Some r else own_move name rest
  end.

(** The block that computes [krumpKnowledge]. On an inherited name,
    [knownMoves[normalizedMove].creator] is [undefined] and the call of
    its [toLowerCase] throws. *)
Definition krump_lookup (validStyle move_name claimed_creator : JSValue)
  : Completion JSValue :=
  if is_string validStyle "krump" then
    let* normalizedMove := call_toLowerCase move_name in
    match own_move normalizedMove knownMoves with
    | Some (creator, era) =>
        let* claimed := call_toLowerCase claimed_creator in
        Normal (JObj
          [ ("known_origin", JObj [ ("creator", JStr creator); ("era", JStr era) ]);
            ("match", JBool (String.eqb (toLowerCase creator) claimed)) ])
    | None =>
        if existsb (String.eqb normalizedMove) Object_prototype_names
        then Throw
        else Normal JNull
    end
  else Normal JNull.

(** POST /verify/attribution, after the middleware. *)
Definition post_verify_attribution (e : Env) (body : JSValue) (store : gmap string Receipt)
  : Completion (Response * gmap string Receipt) :=
  let* move_name := JS.get body "move_name" in
  let* claimed_creator := JS.get body "claimed_creator" in
  let* style := JS.get body "style" in
  let* year := JS.get body "year" in
  let* evidence_urls := JS.get body "evidence_urls" in
  if negb (JS.truthy move_name) || negb (JS.truthy claimed_creator)
  then Normal (BadRequest "Required fields: move_name, claimed_creator", store)
  else
    let* validStyle := style_or_other style in
    let* krumpKnowledge := krump_lookup validStyle move_name claimed_creator in
    let '(receipt, store') :=
      generateReceipt (uuid1 e) (now_mint e)
        {| data_type := "attribution_verification";
           data_request := JObj
             [ ("move_name", move_name);
               ("claimed_creator", claimed_creator);
               ("style", validStyle);
               ("year", JS.or year JNull);
               ("evidence_urls", JS.or evidence_urls (JArr [])) ];
           data_result := JObj
             [ ("status", JStr "recorded");
               ("claim_recorded", JBool true);
               ("krump_database_match", krumpKnowledge);
               ("verification_status",
                 if JS.truthy (JS.get_opt krumpKnowledge "match")
                 then JStr "likely_accurate" else JStr "unverified");
               ("confidence",
                 if JS.truthy krumpKnowledge
                 then JNum (Number.decimal 85 2) else JNum (Number.decimal 5 1));
               ("note",
                 if is_string validStyle "krump"
                 then JStr "Krump attribution cross-referenced with our lineage database"
                 else JStr "Attribution recorded. Advanced verification coming soon.") ];
           data_price_paid := "0.005 USDC" |} store in
    Normal (Ok receipt, store').

(* ------------------------------------------------------------------- *)
(** *** The server *)

(** The endpoint each paid route passes to [x402Middleware]. *)
Definition endpoint_of (r : Route) : option string :=
  match r with
  | PostVerifyMove => Some "verify/move"
  | PostVerifyVideo => Some "verify/video"
  | PostVerifyChoreography => Some "verify/choreography"
  | PostVerifyAttribution => Some "verify/attribution"
  | _ => None
  end.

(** The handler registered behind the middleware of each paid route. *)
Definition handler_of (r : Route)
  : option (Env -> JSValue -> gmap string Receipt
            -> Completion (Response * gmap string Receipt)) :=
  match r with
  | PostVerifyMove => Some post_verify_move
  | PostVerifyVideo => Some post_verify_video
  | PostVerifyChoreography => Some post_verify_choreography
  | PostVerifyAttribution => Some post_verify_attribution
  | _ => None
  end.

(** A paid route, as [app.post(path, x402Middleware(endpoint), handler)]
    registers it: the middleware, then the handler; an exception that
    escapes the handler is answered with status 500. *)
Definition paid (endpoint : string)
    (handler : Env -> JSValue -> gmap string Receipt
               -> Completion (Response * gmap string Receipt))
    (rq : Request) (st : State) : Response * State :=
  match x402Middleware endpoint (header rq) (now_gate (env rq)) (payments st) with
  | (Reject r, m) => (r, {| payments := m; receipts := receipts st |})
  | (Next, m) =>
      match handler (env rq) (body rq) (receipts st) with
      | Normal (r, store) => (r, {| payments := m; receipts := store |})
      | Throw => (ServerError, {| payments := m; receipts := receipts st |})
      end
  end.

(** One request served from state [st]. *)
Definition handle (rq : Request) (st : State) : Response * State :=
  match route rq with
  | GetRoot => (Descriptor, st)
  | GetStyles => (Styles DANCE_STYLES (List.length DANCE_STYLES), st)
  | GetHealth => (Health (size (receipts st)), st)
  | GetReceipt id =>
      match receipts st !! id with
      | Some receipt => (Ok receipt, st)
      | None => (NotFound, st)
      end
  | PostVerifyMove => paid "verify/move" post_verify_move rq st
  | PostVerifyVideo => paid "verify/video" post_verify_video rq st
  | PostVerifyChoreography => paid "verify/choreography" post_verify_choreography rq st
  | PostVerifyAttribution => paid "verify/attribution" post_verify_attribution rq st
  end.

(** The state after a sequence of requests. *)
Fixpoint run (rqs : list Request) (st : State) : State :=
  match rqs with
  | [] => st
  | rq :: rest => run rest (snd (handle rq st))
  end.

End Service.

(* ===================================================================== *)
(** ** A host to run the model on *)
(* ===================================================================== *)

(** A reader for a subset of JSON: objects, arrays, strings without escape
    sequences, integers without fraction or exponent, [true], [false] and
    [null]. On a text of this subset it returns what [JSON.parse] returns;
    any other text is refused. *)
Module Json.

Definition dquote : ascii := "034".

Definition is_ws (c : ascii) : bool :=
  let n := nat_of_ascii c in
  Nat.eqb n 32 || Nat.eqb n 9 || Nat.eqb n 10 || Nat.eqb n 13.

Fixpoint skip_ws (s : string) : string :=
  match s with
  | String c r => if is_ws c then skip_ws r else s
  | EmptyString => s
  end.

(** The characters after an opening quote, up to the closing one. *)
Fixpoint read_string (s : string) : option (string * string) :=
  match s with
  | EmptyString => None
  | String c r =>
      if Ascii.eqb c dquote then Some (EmptyString, r)
      else if Ascii.eqb c "092" || Nat.ltb (nat_of_ascii c) 32 then None
      else
        match read_string r with
        | Some (t, r') => Some (String c t, r')
        | None => None
        end
  end.

Definition digit (c : ascii) : option Z :=
  let n := nat_of_ascii c in
  if Nat.leb 48 n && Nat.leb n 57 then Some (Z.of_nat (n - 48)) else None.

Fixpoint read_digits (s : string) (acc : Z) : Z * string :=
  match s with
  | String c r =>
      match digit c with
      | Some d => read_digits r (10 * acc + d)
      | None => (acc, s)
      end
  | EmptyString => (acc, s)
  end.

(** An integer: [0], or a non-zero digit followed by digits, not followed
    by a fraction or an exponent. *)
Definition read_int (negative : bool) (s : string) : option (JSValue * string) :=
  match s with
  | String c r =>
      match digit c with
      | Some d =>
          let '(n, rest) := if d =? 0 then (0, r) else read_digits r d in
          match rest with
          | String c' _ =>
              if Ascii.eqb c' "." || Ascii.eqb c' "e" || Ascii.eqb c' "E"
                 || match digit c' with Some _ => true | None => false end
              then None
              else Some (JNum (if negative && (n =? 0) then S754_zero true
                               else Number.of_Z (if negative then - n else n)), rest)
          | EmptyString =>
              Some (JNum (if negative && (n =? 0) then S754_zero true
                          else Number.of_Z (if negative then - n else n)), rest)
          end
      | None => None
      end
  | EmptyString => None
  end.

Fixpoint strip (p s : string) : option string :=
  match p, s with
  | EmptyString, _ => Some s
  | String a p', String b s' => if Ascii.eqb a b then strip p' s' else None
  | _, _ => None
  end.

(** A repeated key keeps its first position and takes the last value. *)
Fixpoint set_prop (k : string) (v : JSValue) (props : list (string * JSValue))
  : list (string * JSValue) :=
  match props with
  | [] => [(k, v)]
  | (k', v') :: rest =>
      if String.eqb k' k then (k', v) :: rest else (k', v') :: set_prop k v rest
  end.

Fixpoint value (fuel : nat) (s : string) {struct fuel} : option (JSValue * string) :=
  match fuel with
  | O => None
  | S f =>
      match skip_ws s with
      | EmptyString => None
      | String c r =>
          if Ascii.eqb c "{" then
            match skip_ws r with
            | String c' r' => if Ascii.eqb c' "}" then Some (JObj [], r') else members f r []
            | EmptyString => None
            end
          else if Ascii.eqb c "[" then
            match skip_ws r with
            | String c' r' => if Ascii.eqb c' "]" then Some (JArr [], r') else elements f r []
            | EmptyString => None
            end
          else if Ascii.eqb c dquote then
            match read_string r with
            | Some (t, r') => Some (JStr t, r')
            | None => None
            end
          else if Ascii.eqb c "-" then read_int true r
          else
            match strip "true" (String c r), strip "false" (String c r),
                  strip "null" (String c r) with
            | Some r', _, _ => Some (JBool true, r')
            | _, Some r', _ => Some (JBool false, r')
            | _, _, Some r' => Some (JNull, r')
            | _, _, _ => read_int false (String c r)
            end
      end
  end
with members (fuel : nat) (s : string) (acc : list (string * JSValue)) {struct fuel}
  : option (JSValue * string) :=
  match fuel with
  | O => None
  | S f =>
      match skip_ws s with
      | String c r =>
          if Ascii.eqb c dquote then
            match read_string r with
            | Some (k, r1) =>
                match skip_ws r1 with
                | String c1 r2 =>
                    if Ascii.eqb c1 ":" then
                      match value f r2 with
                      | Some (v, r3) =>
                          match skip_ws r3 with
                          | String c3 r4 =>
                              if Ascii.eqb c3 "," then members f r4 (set_prop k v acc)
                              else if Ascii.eqb c3 "}" then Some (JObj (set_prop k v acc), r4)
                              else None
                          | EmptyString => None
                          end
                      | None => None
                      end
                    else None
                | EmptyString => None
                end
            | None => None
            end
          else None
      | EmptyString => None
      end
  end
with elements (fuel : nat) (s : string) (acc : list JSValue) {struct fuel}
  : option (JSValue * string) :=
  match fuel with
  | O => None
  | S f =>
      match value f s with
      | Some (v, r1) =>
          match skip_ws r1 with
          | String c r2 =>
              if Ascii.eqb c "," then elements f r2 (acc ++ [v])
              else if Ascii.eqb c "]" then Some (JArr (acc ++ [v]), r2)
              else None
          | EmptyString => None
          end
      | None => None
      end
  end.

Definition parse (s : string) : option JSValue :=
  match value (2 * String.length s + 2) s with
  | Some (v, rest) =>
      match skip_ws rest with
      | EmptyString => Some v
      | _ => None
      end
  | None => None
  end.

(** Writing JSON text: a string between double quotes. *)
Definition quoted (s : string) : string :=
  String dquote (s ++ String dquote EmptyString).

End Json.

(** The host of the examples: the JSON subset reader, the ASCII string
    functions and the default wallet address of the source. *)
#[export, refine] Instance sample_host : Host := {|
  JSON_parse := Json.parse;
  toLowerCase := Str.ascii_lower;
  trim := Str.ascii_trim;
  WALLET_ADDRESS := "0x1e1A34178d80a03E8F4B78f9Cc2AFA8Db23BB092"
|}.
Proof.
  - reflexivity.
  - reflexivity.
  - reflexivity.
Defined.

(** Sample data: proof headers as JSON text, request environments and
    requests. *)
Module Sample.

Definition field (k v : string) : string := Json.quoted k ++ ":" ++ Json.quoted v.

(** { txHash: 0xabc, signature: 0xsig } *)
Definition proof_abc : string :=
  "{" ++ field "txHash" "0xabc" ++ "," ++ field "signature" "0xsig" ++ "}".

(** { txHash: 0xabc } alone, with other spacing *)
Definition proof_abc_bare : string := "{ " ++ field "txHash" "0xabc" ++ " }".

(** { signature: 0xsig } *)
Definition proof_signed : string := "{" ++ field "signature" "0xsig" ++ "}".

(** A proof whose txHash is the empty string, with a signature. *)
Definition proof_empty_hash : string :=
  "{" ++ field "txHash" "" ++ "," ++ field "signature" "0xsig" ++ "}".

(** A proof whose signature is the empty string, without txHash. *)
Definition proof_empty_signature : string := "{" ++ field "signature" "" ++ "}".

Definition env1 : Env :=
  {| now_gate := 1767225600000; now_mint := 1767225600001;
     uuid1 := "123e4567-e89b-42d3-a456-426614174000";
     uuid2 := "00112233-4455-4677-8899-aabbccddeeff" |}.

Definition env2 : Env :=
  {| now_gate := 1767225601000; now_mint := 1767225601001;
     uuid1 := "9b2f0c1e-7a3d-4e5f-8a6b-0c1d2e3f4a5b";
     uuid2 := "5a4f3e2d-1c0b-4a69-8877-665544332211" |}.

Definition video_body : JSValue :=
  JObj [ ("video_url", JStr "https://example.org/clip.mp4") ].

Definition video_body_tango : JSValue :=
  JObj [ ("style", JStr "tango"); ("video_url", JStr "https://example.org/clip.mp4") ].

Definition request (r : Route) (h : option string) (b : JSValue) (e : Env) : Request :=
  {| route := r; header := h; body := b; env := e |}.

End Sample.

(** What the reader returns on the sample headers. *)
Example parse_proof_abc :
  Json.parse Sample.proof_abc
  = Some (JObj [("txHash", JStr "0xabc"); ("signature", JStr "0xsig")]).
Proof. reflexivity. Qed.

Example parse_proof_empty_hash :
  Json.parse Sample.proof_empty_hash
  = Some (JObj [("txHash", JStr ""); ("signature", JStr "0xsig")]).
Proof. reflexivity. Qed.

Example parse_proof_empty_signature :
  Json.parse Sample.proof_empty_signature = Some (JObj [("signature", JStr "")]).
Proof. reflexivity. Qed.

Example parse_malformed : Json.parse "{oops" = None /\ Json.parse "" = None.
Proof. split; reflexivity. Qed.

(** The prices as binary64 values, and their products with 1e6: each
    product rounds to the integer itself. *)
Example price_move_binary64 :
  Number.decimal 1 3 = S754_finite false 4611686018427388 (-62)
  /\ Number.mul (Number.decimal 1 3) (Number.of_Z 1000000) = Number.of_Z 1000.
Proof. split; vm_compute; reflexivity. Qed.

Example price_products :
  Number.mul (Number.decimal 1 2) (Number.of_Z 1000000) = Number.of_Z 10000
  /\ Number.mul (Number.decimal 5 2) (Number.of_Z 1000000) = Number.of_Z 50000
  /\ Number.mul (Number.decimal 5 3) (Number.of_Z 1000000) = Number.of_Z 5000.
Proof. repeat split; vm_compute; reflexivity. Qed.

(** Outside the four registered endpoints: on a name that [PRICES]
    inherits the amount is NaN, on any other name it is that of the
    default price. *)
Example amount_unregistered_endpoint :
  amount (createPaymentRequired (H := sample_host) "constructor") = "NaN"
  /\ amount (createPaymentRequired (H := sample_host) "verify/unknown") = "1000".
Proof. split; vm_compute; reflexivity. Qed.

(** The length of a string in code units: the two characters U+65E5 U+672C
    take six bytes and two units, the character U+1F483 takes four bytes
    and two units. *)
Example utf16_length_units :
  Str.utf16_length
    (String "230" (String "151" (String "165"
       (String "230" (String "156" (String "172" EmptyString))))))
  = 2%nat
  /\ Str.utf16_length
       (String "240" (String "159" (String "146" (String "131" EmptyString))))
     = 2%nat
  /\ Str.utf16_length "chest pop" = 9%nat.
Proof. repeat split; reflexivity. Qed.

(** On ASCII the length in code units is the number of bytes. *)
Lemma utf16_length_ascii (s : string) :
  Str.is_ascii s = true -> Str.utf16_length s = String.length s.
Proof.
  induction s as [|c s IH]; [reflexivity|].
  cbn [Str.is_ascii Str.utf16_length String.length]. unfold Str.is_ascii_char.
  intros Ha. apply andb_true_iff in Ha as [-> Hs]. now rewrite (IH Hs).
Qed.

(* ===================================================================== *)
(** ** Statements *)
(* ===================================================================== *)

(** The vocabulary in which the properties below are stated. *)
Section Statements.

Context `{Host}.

(** [rq] addresses a paid route and carries a proof header that parses to
    a value whose [txHash] is the string [s]. *)
Definition presents (rq : Request) (s : string) : Prop :=
  exists ep t v,
    endpoint_of (route rq) = Some ep /\ header rq = Some t /\
    JSON_parse t = Some v /\ JS.get v "txHash" = Normal (JStr s).

(** The middleware of the route of [rq] calls [next] in state [st]. *)
Definition accepted (rq : Request) (st : State) : Prop :=
  exists ep,
    endpoint_of (route rq) = Some ep /\
    fst (x402Middleware ep (header rq) (now_gate (env rq)) (payments st)) = Next.

(** Once a request presenting [s] was accepted, every later request
    presenting [s] is answered Invalid Payment, whatever was served in
    between. *)
Definition single_use (s : string) : Prop :=
  forall rq st, presents rq s -> accepted rq st ->
  forall rqs rq', presents rq' s ->
    fst (handle rq' (run rqs (snd (handle rq st)))) = PaymentInvalid.





(** A proof that parses and holds the signature string [sg] and no
    [txHash] is let through in every state, and [payments] stays as it
    was. *)
Definition signature_only_accepted (sg : string) : Prop :=
  forall t v,
    JSON_parse t = Some v ->
    JS.get v "signature" = Normal (JStr sg) ->
    JS.get v "txHash" = Normal JUndefined ->
    forall ep now m, x402Middleware ep (Some t) now m = (Next, m).

(** The response reports a failed validation of the body. *)
Definition validation_failure (r : Response) : Prop :=
  (exists message, r = BadRequest message)
  \/ (exists style valid_styles, r = InvalidStyle style valid_styles).

(** A request presenting [s] that passes the gate and then fails
    validation: [s] is recorded, no receipt is stored, and a later request
    presenting [s] is answered Invalid Payment. *)
Definition consumed_by_failed_request (s : string) : Prop :=
  forall rq st, presents rq s -> accepted rq st ->
    validation_failure (fst (handle rq st)) ->
    payments_has (JStr s) (payments (snd (handle rq st))) = true
    /\ receipts (snd (handle rq st)) = receipts st
    /\ forall rqs rq', presents rq' s ->
         fst (handle rq' (run rqs (snd (handle rq st)))) = PaymentInvalid.

(** The three routes that do not insist on a recognized style. *)
Definition tolerant (r : Route) : bool :=
  match r with
  | PostVerifyVideo | PostVerifyChoreography | PostVerifyAttribution => true
  | _ => false
  end.

(** The body passes the required-field check of its route. *)
Definition required_present (r : Route) (b : JSValue) : bool :=
  match r with
  | PostVerifyMove =>
      JS.truthy (JS.get_opt b "style") && JS.truthy (JS.get_opt b "move_name")
  | PostVerifyVideo => JS.truthy (JS.get_opt b "video_url")
  | PostVerifyChoreography =>
      JS.truthy (JS.get_opt b "video_url") || JS.truthy (JS.get_opt b "moves")
  | PostVerifyAttribution =>
      JS.truthy (JS.get_opt b "move_name") && JS.truthy (JS.get_opt b "claimed_creator")
  | _ => false
  end.

(** The validator does not recognize the style string [s]. *)
Definition unrecognized (s : string) : Prop := validateStyle (JStr s) = Normal JNull.

(** What a receipt records. *)
Definition recorded_style (receipt : Receipt) : JSValue :=
  JS.get_opt (receipt_request receipt) "style".

Definition move_count (receipt : Receipt) : JSValue :=
  JS.get_opt (receipt_result receipt) "move_count".

Definition verification_status (receipt : Receipt) : JSValue :=
  JS.get_opt (receipt_result receipt) "verification_status".

Definition krump_database_match (receipt : Receipt) : JSValue :=
  JS.get_opt (receipt_result receipt) "krump_database_match".

(** On a tolerant route, a request with the unrecognized style [s] gets a
    receipt whose style is the catch-all. *)
Definition unrecognized_becomes_other (s : string) : Prop :=
  forall r handler e b store,
    tolerant r = true -> handler_of r = Some handler ->
    required_present r b = true ->
    JS.get b "style" = Normal (JStr s) -> unrecognized s ->
    exists receipt store',
      handler e b store = Normal (Ok receipt, store')
      /\ recorded_style receipt = JStr "other".

(** The receipt of a choreography request with the moves list [l] counts
    its elements. *)
Definition move_count_is_length (l : list JSValue) : Prop :=
  forall e b store receipt store',
    JS.get b "moves" = Normal (JArr l) ->
    post_verify_choreography e b store = Normal (Ok receipt, store') ->
    move_count receipt = JNum (Number.of_nat (List.length l)).

End Statements.

(* ===================================================================== *)
(** ** Properties *)
(* ===================================================================== *)

Create HintDb gate discriminated.

Section Numbers.

(** One shift to the right takes one digit off a mantissa of two digits or
    more. *)
Lemma shr_1_digits (mrs : shr_record) (q : positive) :
  shr_m mrs = Z.pos q -> 1 < Z.pos (digits2_pos q) ->
  exists q', shr_m (shr_1 mrs) = Z.pos q'
             /\ Z.pos (digits2_pos q') = Z.pos (digits2_pos q) - 1.
Proof.
  destruct mrs as [m r s]. cbn [shr_m]. intros -> Hd.
  destruct q as [q|q|]; cbn [shr_1 shr_m digits2_pos] in *.
  - exists q. split; [reflexivity|lia].
  - exists q. split; [reflexivity|lia].
  - lia.
Qed.

Lemma iter_shr_1_digits (k : positive) :
  forall (mrs : shr_record) (q : positive),
  shr_m mrs = Z.pos q -> Z.pos k < Z.pos (digits2_pos q) ->
  exists q', shr_m (SpecFloat.iter_pos shr_1 k mrs) = Z.pos q'
             /\ Z.pos (digits2_pos q') = Z.pos (digits2_pos q) - Z.pos k.
Proof.
  induction k as [k IH|k IH|]; intros mrs q Hm Hd; cbn [SpecFloat.iter_pos];
    [rewrite Pos2Z.inj_xI in *|rewrite Pos2Z.inj_xO in *|].
  - destruct (shr_1_digits mrs q Hm ltac:(lia)) as (q0 & H0 & D0).
    destruct (IH _ q0 H0 ltac:(lia)) as (q1 & H1 & D1).
    destruct (IH _ q1 H1 ltac:(lia)) as (q2 & H2 & D2).
    exists q2. split; [exact H2|lia].
  - destruct (IH _ q Hm ltac:(lia)) as (q1 & H1 & D1).
    destruct (IH _ q1 H1 ltac:(lia)) as (q2 & H2 & D2).
    exists q2. split; [exact H2|lia].
  - apply shr_1_digits; [exact Hm|lia].
Qed.

(** Shifting to the canonical exponent keeps a positive mantissa positive,
    as long as the exponent is not below the least one. *)
Lemma shr_fexp_positive (q : positive) (e : Z) (l : location) :
  -1074 <= e ->
  exists q', shr_m (fst (shr_fexp 53 1024 (Z.pos q) e l)) = Z.pos q'.
Proof.
  intros He. unfold shr_fexp, shr. cbn [Zdigits2].
  assert (Ef : fexp 53 1024 (Z.pos (digits2_pos q) + e) - e
               = Z.max (Z.pos (digits2_pos q) - 53) (-1074 - e)).
  { unfold fexp, emin. lia. }
  rewrite Ef.
  destruct (Z.max (Z.pos (digits2_pos q) - 53) (-1074 - e)) as [|k|k] eqn:Ek; cbn [fst].
  - exists q. now destruct l as [|[]].
  - destruct (iter_shr_1_digits k (shr_record_of_loc (Z.pos q) l) q) as (q' & Hq & _).
    + now destruct l as [|[]].
    + lia.
    + eauto.
  - exists q. now destruct l as [|[]].
Qed.

Lemma shr_fexp_exponent (m e : Z) (l : location) :
  e <= snd (shr_fexp 53 1024 m e l).
Proof.
  unfold shr_fexp, shr.
  destruct (fexp 53 1024 (Zdigits2 m + e) - e); cbn [snd]; lia.
Qed.

Lemma round_nearest_even_positive (q : positive) (l : location) :
  exists q', round_nearest_even (Z.pos q) l = Z.pos q'.
Proof.
  destruct l as [|[]]; cbn [round_nearest_even];
    try destruct (Z.even (Z.pos q));
    first [ now exists q | now exists (q + 1)%positive ].
Qed.

Lemma binary_round_aux_truthy (q : positive) (e : Z) :
  -1074 <= e -> Number.truthy (binary_round_aux 53 1024 false (Z.pos q) e loc_Exact) = true.
Proof.
  intros He. unfold binary_round_aux.
  pose proof (shr_fexp_positive q e loc_Exact He) as (q1 & H1).
  pose proof (shr_fexp_exponent (Z.pos q) e loc_Exact) as E1.
  destruct (shr_fexp 53 1024 (Z.pos q) e loc_Exact) as [mrs1 e1]. cbn [fst snd] in *.
  rewrite H1.
  destruct (round_nearest_even_positive q1 (loc_of_shr_record mrs1)) as (q2 & H2).
  rewrite H2.
  pose proof (shr_fexp_positive q2 e1 loc_Exact ltac:(lia)) as (q3 & H3).
  destruct (shr_fexp 53 1024 (Z.pos q2) e1 loc_Exact) as [mrs2 e2]. cbn [fst] in *.
  rewrite H3. now destruct (e2 <=? 1024 - 53).
Qed.

Lemma binary_round_truthy (p : positive) :
  Number.truthy (binary_round 53 1024 false p 0) = true.
Proof.
  unfold binary_round, shl_align.
  assert (Ef : -1074 <= fexp 53 1024 (Z.pos (digits2_pos p) + 0)).
  { unfold fexp, emin. lia. }
  destruct (fexp 53 1024 (Z.pos (digits2_pos p) + 0) - 0);
    apply binary_round_aux_truthy; lia.
Qed.

(** The length of a non-empty list is a truthy Number. *)
Lemma of_nat_truthy (n : nat) : Number.truthy (Number.of_nat (S n)) = true.
Proof.
  unfold Number.of_nat, Number.of_Z, Number.prec, Number.emax.
  cbn [Z.of_nat binary_normalize]. apply binary_round_truthy.
Qed.

End Numbers.

Section Payments.

(** [payments] only grows: [set] keeps every key that was there. *)
Lemma payments_has_set_mono (k k' : JSValue) (t : Z) (m : list (JSValue * Z)) :
  payments_has k m = true -> payments_has k (payments_set k' t m) = true.
Proof.
  induction m as [|[k0 v0] m IH]; simpl; [discriminate|].
  intros Hk. destruct (JS.same_value_zero k0 k') eqn:E; simpl.
  - exact Hk.
  - apply orb_true_iff in Hk as [Hk|Hk]; apply orb_true_iff; [left|right]; auto.
Qed.

(** A key that equals itself is found after it was set. *)
Lemma payments_has_set_same (k : JSValue) (t : Z) (m : list (JSValue * Z)) :
  JS.same_value_zero k k = true -> payments_has k (payments_set k t m) = true.
Proof.
  intros Hk. induction m as [|[k0 v0] m IH]; simpl.
  - now rewrite Hk.
  - destruct (JS.same_value_zero k0 k) eqn:E; simpl.
    + now rewrite E.
    + rewrite E. exact IH.
Qed.

Lemma same_value_zero_string (s : string) : JS.same_value_zero (JStr s) (JStr s) = true.
Proof. simpl. apply String.eqb_refl. Qed.

Lemma nonempty_true (s : string) : s <> "" -> Str.nonempty s = true.
Proof.
  intros Hs. unfold Str.nonempty. destruct (String.eqb_spec s ""); [contradiction|reflexivity].
Qed.

Lemma nonempty_false (s : string) : Str.nonempty s = false -> s = "".
Proof.
  unfold Str.nonempty. destruct (String.eqb_spec s ""); [auto|discriminate].
Qed.

End Payments.

#[local] Hint Resolve payments_has_set_mono payments_has_set_same
  same_value_zero_string nonempty_true : gate.

Section Gate.

Context `{Host}.

(** A text that parses is not empty, hence not a missing header. *)
Lemma parsed_not_missing (t : string) (v : JSValue) :
  JSON_parse t = Some v -> header_missing (Some t) = false.
Proof.
  intros Hp. simpl. destruct (Str.nonempty t) eqn:E; [reflexivity|].
  apply nonempty_false in E. subst t. rewrite JSON_parse_empty in Hp. discriminate.
Qed.

(** The middleware answers 402 or calls [next]; it never changes
    [payments] when it rejects. *)
Lemma x402Middleware_cases (ep : string) (h : option string) (now : Z)
    (m : list (JSValue * Z)) :
  x402Middleware ep h now m = (Reject (PaymentRequired (createPaymentRequired ep)), m)
  \/ x402Middleware ep h now m = (Reject PaymentInvalid, snd (verifyPayment h now m))
  \/ x402Middleware ep h now m = (Next, snd (verifyPayment h now m)).
Proof.
  unfold x402Middleware. destruct (header_missing h); [now left|].
  destruct (verifyPayment h now m) as [[|] m']; simpl; auto.
Qed.

(** [verifyPayment] keeps every recorded key. *)
Lemma verifyPayment_mono (k : JSValue) (h : option string) (now : Z)
    (m : list (JSValue * Z)) :
  payments_has k m = true -> payments_has k (snd (verifyPayment h now m)) = true.
Proof.
  intros Hk. unfold verifyPayment.
  destruct (header_missing h); [exact Hk|].
  destruct h as [t|]; [|exact Hk].
  destruct (JSON_parse t) as [v|]; [|exact Hk].
  unfold check_payment.
  destruct (JS.get v "txHash") as [tx|]; simpl; [|exact Hk].
  destruct (JS.get v "signature") as [sg|]; simpl; [|exact Hk].
  destruct (negb (JS.truthy tx) && negb (JS.truthy sg)); [exact Hk|].
  destruct (JS.truthy tx && payments_has tx m); [exact Hk|].
  destruct (JS.truthy tx); simpl; auto with gate.
Qed.

Lemma x402Middleware_mono (k : JSValue) (ep : string) (h : option string) (now : Z)
    (m : list (JSValue * Z)) :
  payments_has k m = true -> payments_has k (snd (x402Middleware ep h now m)) = true.
Proof.
  intros Hk.
  destruct (x402Middleware_cases ep h now m) as [E|[E|E]]; rewrite E; simpl;
    auto using verifyPayment_mono.
Qed.

(** What a paid route leaves in [payments] is what the middleware left. *)
Lemma paid_payments (ep : string) handler (rq : Request) (st : State) :
  payments (snd (paid ep handler rq st))
  = snd (x402Middleware ep (header rq) (now_gate (env rq)) (payments st)).
Proof.
  unfold paid.
  destruct (x402Middleware ep (header rq) (now_gate (env rq)) (payments st)) as [[r|] m];
    simpl; [reflexivity|].
  destruct (handler (env rq) (body rq) (receipts st)) as [[r store]|]; reflexivity.
Qed.

(** On a paid route [handle] is the middleware followed by the handler. *)
Lemma handle_paid (rq : Request) (st : State) (ep : string) handler :
  endpoint_of (route rq) = Some ep -> handler_of (route rq) = Some handler ->
  handle rq st = paid ep handler rq st.
Proof.
  unfold handle. destruct (route rq); simpl; intros E1 E2;
    try discriminate; injection E1 as <-; injection E2 as <-; reflexivity.
Qed.

Lemma handler_of_endpoint (r : Route) (ep : string) :
  endpoint_of r = Some ep -> exists handler, handler_of r = Some handler.
Proof. destruct r; simpl; intros E; try discriminate; eauto. Qed.

Lemma handle_mono (k : JSValue) (rq : Request) (st : State) :
  payments_has k (payments st) = true ->
  payments_has k (payments (snd (handle rq st))) = true.
Proof.
  intros Hk. destruct (endpoint_of (route rq)) as [ep|] eqn:E.
  - destruct (handler_of_endpoint _ _ E) as [handler Hh].
    rewrite (handle_paid rq st ep handler E Hh), paid_payments.
    now apply x402Middleware_mono.
  - unfold handle. destruct (route rq); try discriminate; simpl; auto.
    destruct (receipts st !! id); exact Hk.
Qed.

Lemma run_mono (k : JSValue) (rqs : list Request) (st : State) :
  payments_has k (payments st) = true ->
  payments_has k (payments (run rqs st)) = true.
Proof.
  revert st. induction rqs as [|rq rqs IH]; simpl; intros st Hk; [exact Hk|].
  apply IH. now apply handle_mono.
Qed.

End Gate.

(* --------------------------------------------------------------------- *)
(** *** Replay protection *)

Section Replay.

Context `{Host}.

Lemma get_defined (v x : JSValue) (k k' : string) :
  JS.get v k = Normal x -> exists y, JS.get v k' = Normal y.
Proof. destruct v; simpl; intros E; try discriminate; eauto. Qed.

Lemma get_opt_get (b x : JSValue) (k : string) :
  JS.get b k = Normal x -> JS.get_opt b k = x.
Proof. unfold JS.get_opt. now intros ->. Qed.

(** An accepted proof with a non-empty [txHash] string is recorded. *)
Lemma gate_records (ep t : string) (v : JSValue) (s : string) (now : Z)
    (m : list (JSValue * Z)) :
  JSON_parse t = Some v -> JS.get v "txHash" = Normal (JStr s) -> s <> "" ->
  fst (x402Middleware ep (Some t) now m) = Next ->
  payments_has (JStr s) (snd (x402Middleware ep (Some t) now m)) = true.
Proof.
  intros Hp Htx Hs. destruct (get_defined _ _ _ "signature" Htx) as [sg Hsg].
  unfold x402Middleware, verifyPayment.
  rewrite (parsed_not_missing t v Hp), Hp. unfold check_payment.
  rewrite Htx, Hsg. simpl. rewrite (nonempty_true s Hs). simpl.
  destruct (payments_has (JStr s) m) eqn:E; simpl; [discriminate|].
  intros _. auto with gate.
Qed.

(** A proof whose non-empty [txHash] string is recorded is refused. *)
Lemma gate_replay (ep t : string) (v : JSValue) (s : string) (now : Z)
    (m : list (JSValue * Z)) :
  JSON_parse t = Some v -> JS.get v "txHash" = Normal (JStr s) -> s <> "" ->
  payments_has (JStr s) m = true ->
  x402Middleware ep (Some t) now m = (Reject PaymentInvalid, m).
Proof.
  intros Hp Htx Hs Hm. destruct (get_defined _ _ _ "signature" Htx) as [sg Hsg].
  unfold x402Middleware, verifyPayment.
  rewrite (parsed_not_missing t v Hp), Hp. unfold check_payment.
  rewrite Htx, Hsg. simpl. rewrite (nonempty_true s Hs), Hm. reflexivity.
Qed.

(** The response of a paid route whose middleware rejects. *)
Lemma handle_rejected (rq : Request) (st : State) (ep : string) (r : Response)
    (m : list (JSValue * Z)) :
  endpoint_of (route rq) = Some ep ->
  x402Middleware ep (header rq) (now_gate (env rq)) (payments st) = (Reject r, m) ->
  handle rq st = (r, {| payments := m; receipts := receipts st |}).
Proof.
  intros E Hg. destruct (handler_of_endpoint _ _ E) as [handler Hh].
  rewrite (handle_paid rq st ep handler E Hh). unfold paid. now rewrite Hg.
Qed.

Lemma handle_payments (rq : Request) (st : State) (ep : string) :
  endpoint_of (route rq) = Some ep ->
  payments (snd (handle rq st))
  = snd (x402Middleware ep (header rq) (now_gate (env rq)) (payments st)).
Proof.
  intros E. destruct (handler_of_endpoint _ _ E) as [handler Hh].
  rewrite (handle_paid rq st ep handler E Hh). apply paid_payments.
Qed.

(** An accepted request records the non-empty hash it presents. *)
Lemma accepted_records (s : string) (rq : Request) (st : State) :
  s <> "" -> presents rq s -> accepted rq st ->
  payments_has (JStr s) (payments (snd (handle rq st))) = true.
Proof.
  intros Hs (ep & t & v & Hep & Hh & Hp & Htx) (ep0 & Hep0 & Hacc).
  rewrite Hep in Hep0. injection Hep0 as <-. rewrite Hh in Hacc.
  rewrite (handle_payments rq st ep Hep), Hh. eapply gate_records; eauto.
Qed.

(** A request presenting a recorded non-empty hash is refused. *)
Lemma recorded_refused (s : string) (rq : Request) (st : State) :
  s <> "" -> presents rq s -> payments_has (JStr s) (payments st) = true ->
  handle rq st = (PaymentInvalid, st).
Proof.
  intros Hs (ep & t & v & Hep & Hh & Hp & Htx) Hrec.
  erewrite handle_rejected; [|exact Hep|rewrite Hh; eapply gate_replay; eauto].
  now destruct st.
Qed.

(** C1, as amended. For every non-empty transaction hash string: once a
    request to a paid route carrying a proof with that [txHash] has passed
    the payment gate, every later request to a paid route whose proof
    carries the same [txHash] is answered Invalid Payment, whatever the
    other fields of the proof, whichever paid route is addressed and
    whatever requests were served in between. *)
Theorem used_reference_rejected (s : string) : s <> "" -> single_use s.
Proof.
  intros Hs rq st (ep & t & v & Hep & Hh & Hp & Htx) (ep0 & Hep0 & Hacc) rqs rq'
    (ep' & t' & v' & Hep' & Hh' & Hp' & Htx').
  rewrite Hep in Hep0. injection Hep0 as <-. rewrite Hh in Hacc.
  (* the first request records the hash *)
  assert (Hrec : payments_has (JStr s) (payments (snd (handle rq st))) = true).
  { rewrite (handle_payments rq st ep Hep), Hh. eapply gate_records; eauto. }
  (* the requests in between keep it *)
  apply (run_mono _ rqs) in Hrec.
  (* the later request finds it *)
  erewrite handle_rejected; [reflexivity|exact Hep'|].
  rewrite Hh'. eapply gate_replay; eauto.
Qed.

End Replay.

(** C1, as stated, fails for the empty string: a proof whose [txHash] is
    empty passes on the strength of its signature, is not recorded, and
    passes again. *)
Lemma empty_reference_not_single_use : ~ single_use (H := sample_host) "".
Proof.
  intros Hc.
  pose (rq := Sample.request PostVerifyVideo (Some Sample.proof_empty_hash)
                Sample.video_body Sample.env1).
  pose (rq' := Sample.request PostVerifyVideo (Some Sample.proof_empty_hash)
                 Sample.video_body Sample.env2).
  assert (Hp : forall e, presents (H := sample_host)
                 (Sample.request PostVerifyVideo (Some Sample.proof_empty_hash)
                    Sample.video_body e) "").
  { intros e. exists "verify/video", Sample.proof_empty_hash,
      (JObj [("txHash", JStr ""); ("signature", JStr "0xsig")]).
    repeat split; reflexivity. }
  assert (Ha : accepted (H := sample_host) rq initial_state).
  { exists "verify/video". split; reflexivity. }
  specialize (Hc rq initial_state (Hp _) Ha [] rq' (Hp _)).
  vm_compute in Hc. discriminate Hc.
Qed.

(** A request with the hash 0xabc is accepted on the move route; after a
    free request and a signature-only request, the same hash in another
    proof on the video route is refused. *)
Lemma used_reference_rejected_witness :
  fst (handle (H := sample_host)
         (Sample.request PostVerifyVideo (Some Sample.proof_abc_bare)
            Sample.video_body Sample.env2)
         (run (H := sample_host)
            [ Sample.request GetStyles None JUndefined Sample.env1;
              Sample.request PostVerifyVideo (Some Sample.proof_signed)
                Sample.video_body Sample.env1 ]
            (snd (handle (H := sample_host)
                    (Sample.request PostVerifyMove (Some Sample.proof_abc)
                       (JObj [("style", JStr "krump"); ("move_name", JStr "chest pop")])
                       Sample.env1)
                    initial_state))))
  = PaymentInvalid.
Proof.
  apply (used_reference_rejected (H := sample_host) "0xabc").
  - discriminate.
  - exists "verify/move", Sample.proof_abc,
      (JObj [("txHash", JStr "0xabc"); ("signature", JStr "0xsig")]).
    repeat split; reflexivity.
  - exists "verify/move". split; reflexivity.
  - exists "verify/video", Sample.proof_abc_bare, (JObj [("txHash", JStr "0xabc")]).
    repeat split; reflexivity.
Defined.

(* --------------------------------------------------------------------- *)
(** *** Payment required *)

Section PaymentRequired.

Context `{Host}.

Lemma x402Middleware_no_header (ep : string) (now : Z) (m : list (JSValue * Z)) :
  x402Middleware ep None now m = (Reject (PaymentRequired (createPaymentRequired ep)), m).
Proof. reflexivity. Qed.

Lemma handle_no_header (rq : Request) (st : State) (ep : string) :
  endpoint_of (route rq) = Some ep -> header rq = None ->
  handle rq st = (PaymentRequired (createPaymentRequired ep), st).
Proof.
  intros E Hh. erewrite handle_rejected; [|exact E|rewrite Hh; apply x402Middleware_no_header].
  now destruct st.
Qed.

(** C2. On each of the four paid routes a request without a proof header
    is answered Payment Required, the state is left as it was, and the
    [amount] of the payment instructions is the decimal text of
    [Math.floor(price * 1e6)] for the price of that route in [PRICES]:
    1000, 10000, 50000 and 5000. *)
Theorem payment_required_amount (b : JSValue) (e : Env) (st : State) :
  let price ep := price_of ep PRICES in
  let units p := Number.String_of_floor (Number.mul p (Number.of_Z 1000000)) in
  (handle {| route := PostVerifyMove; header := None; body := b; env := e |} st
     = (PaymentRequired (createPaymentRequired "verify/move"), st)
   /\ price "verify/move" = Some (Number.decimal 1 3)
   /\ amount (createPaymentRequired "verify/move") = units (Number.decimal 1 3)
   /\ amount (createPaymentRequired "verify/move") = "1000")
  /\
  (handle {| route := PostVerifyVideo; header := None; body := b; env := e |} st
     = (PaymentRequired (createPaymentRequired "verify/video"), st)
   /\ price "verify/video" = Some (Number.decimal 1 2)
   /\ amount (createPaymentRequired "verify/video") = units (Number.decimal 1 2)
   /\ amount (createPaymentRequired "verify/video") = "10000")
  /\
  (handle {| route := PostVerifyChoreography; header := None; body := b; env := e |} st
     = (PaymentRequired (createPaymentRequired "verify/choreography"), st)
   /\ price "verify/choreography" = Some (Number.decimal 5 2)
   /\ amount (createPaymentRequired "verify/choreography") = units (Number.decimal 5 2)
   /\ amount (createPaymentRequired "verify/choreography") = "50000")
  /\
  (handle {| route := PostVerifyAttribution; header := None; body := b; env := e |} st
     = (PaymentRequired (createPaymentRequired "verify/attribution"), st)
   /\ price "verify/attribution" = Some (Number.decimal 5 3)
   /\ amount (createPaymentRequired "verify/attribution") = units (Number.decimal 5 3)
   /\ amount (createPaymentRequired "verify/attribution") = "5000").
Proof.
  cbv zeta.
  repeat split;
    first [ now apply handle_no_header | vm_compute; reflexivity ].
Qed.

(** C4. Payment gating runs before field validation. A request to a paid
    route that has no proof header is answered Payment Required whatever
    its body holds; and a response Bad Request or Invalid Style is only
    given to a request that the middleware of a paid route has let
    through. *)
Theorem gate_before_validation (rq : Request) (st : State) :
  (forall ep, endpoint_of (route rq) = Some ep -> header rq = None ->
     handle rq st = (PaymentRequired (createPaymentRequired ep), st))
  /\ (forall message, fst (handle rq st) = BadRequest message -> accepted rq st)
  /\ (forall style valid_styles,
        fst (handle rq st) = InvalidStyle style valid_styles -> accepted rq st).
Proof.
  split; [intros ep; apply handle_no_header|].
  assert (Hv : forall r, fst (handle rq st) = r ->
               (exists message, r = BadRequest message)
               \/ (exists style valid_styles, r = InvalidStyle style valid_styles) ->
               accepted rq st).
  { intros r Hr Hshape. destruct (endpoint_of (route rq)) as [ep|] eqn:E.
    - exists ep. split; [exact E|].
      destruct (handler_of_endpoint _ _ E) as [handler Hh].
      rewrite (handle_paid rq st ep handler E Hh) in Hr. unfold paid in Hr.
      destruct (x402Middleware_cases ep (header rq) (now_gate (env rq)) (payments st))
        as [G|[G|G]]; rewrite G in *; simpl in Hr; subst r;
        [destruct Hshape as [[? ?]|(? & ? & ?)]; discriminate ..|reflexivity].
    - unfold handle in Hr. destruct (route rq); try discriminate E; simpl in Hr;
        try (subst r; destruct Hshape as [[? ?]|(? & ? & ?)]; discriminate).
      destruct (receipts st !! id); simpl in Hr; subst r;
        destruct Hshape as [[? ?]|(? & ? & ?)]; discriminate. }
  split.
  - intros message Hr. apply (Hv _ Hr). left. eauto.
  - intros style valid_styles Hr. apply (Hv _ Hr). right. eauto.
Qed.

End PaymentRequired.

(* --------------------------------------------------------------------- *)
(** *** The decision of the gate *)

Section Decision.

Context `{Host}.


Lemma present_not_missing (t : string) : t <> "" -> header_missing (Some t) = false.
Proof. intros Ht. simpl. now rewrite (nonempty_true t Ht). Qed.

(** The middleware on a non-empty header that parses to [v]. *)
Lemma gate_parsed (ep t : string) (v : JSValue) (now : Z) (m : list (JSValue * Z)) :
  JSON_parse t = Some v ->
  x402Middleware ep (Some t) now m
  = let tx := JS.get_opt v "txHash" in
    let sg := JS.get_opt v "signature" in
    if negb (JS.truthy tx) && negb (JS.truthy sg) then (Reject PaymentInvalid, m)
    else if JS.truthy tx && payments_has tx m then (Reject PaymentInvalid, m)
    else if JS.truthy tx then (Next, payments_set tx now m)
    else (Next, m).
Proof.
  intros Hp. unfold x402Middleware, verifyPayment.
  rewrite (parsed_not_missing t v Hp), Hp. unfold check_payment, JS.get_opt.
  destruct (JS.get v "txHash") as [tx|] eqn:Htx.
  - destruct (get_defined _ _ _ "signature" Htx) as [sg Hsg]. rewrite Hsg. cbn [bind].
    destruct (negb (JS.truthy tx) && negb (JS.truthy sg)); [reflexivity|].
    destruct (JS.truthy tx && payments_has tx m); [reflexivity|].
    destruct (JS.truthy tx); reflexivity.
  - destruct v; try discriminate Htx; reflexivity.
Qed.

Lemma gate_unparsed (ep t : string) (now : Z) (m : list (JSValue * Z)) :
  t <> "" -> JSON_parse t = None ->
  x402Middleware ep (Some t) now m = (Reject PaymentInvalid, m).
Proof.
  intros Ht Hp. unfold x402Middleware, verifyPayment.
  now rewrite (present_not_missing t Ht), Hp.
Qed.


(** A proof with a truthy signature and a falsy [txHash] is let through in
    every state, and [payments] stays as it was. *)
Lemma signature_only_gate (t : string) (v : JSValue) :
  JSON_parse t = Some v ->
  JS.truthy (JS.get_opt v "txHash") = false ->
  JS.truthy (JS.get_opt v "signature") = true ->
  forall ep now m, x402Middleware ep (Some t) now m = (Next, m).
Proof.
  intros Hp Htx Hsg ep now m. rewrite (gate_parsed ep t v now m Hp). cbv zeta.
  now rewrite Htx, Hsg.
Qed.

(** C9, as amended. A proof header that parses and holds a non-empty
    signature and no [txHash] is let through in every state and leaves
    [payments] as it was, and so does one whose [txHash] is falsy, such as
    the empty string; the same header is therefore let through again by
    every later request: only a proof with a truthy [txHash] is protected
    against replay. *)
Theorem signature_only_accepted_again (sg : string) :
  sg <> "" ->
  signature_only_accepted sg
  /\ (forall t v,
        JSON_parse t = Some v ->
        JS.get v "signature" = Normal (JStr sg) ->
        JS.truthy (JS.get_opt v "txHash") = false ->
        forall rq st, header rq = Some t ->
          payments (snd (handle rq st)) = payments st
          /\ forall rqs rq' ep', header rq' = Some t -> endpoint_of (route rq') = Some ep' ->
               accepted rq' (run rqs (snd (handle rq st)))).
Proof.
  intros Hne. split.
  - intros t v Hp Hsg Htx. apply (signature_only_gate t v Hp).
    + now rewrite (get_opt_get _ _ _ Htx).
    + rewrite (get_opt_get _ _ _ Hsg). cbn. now apply nonempty_true.
  - intros t v Hp Hsg Htx.
    assert (Hgate : forall ep now m, x402Middleware ep (Some t) now m = (Next, m)).
    { apply (signature_only_gate t v Hp Htx).
      rewrite (get_opt_get _ _ _ Hsg). cbn. now apply nonempty_true. }
    intros rq st Hh. split.
    + destruct (endpoint_of (route rq)) as [ep|] eqn:E.
      * rewrite (handle_payments rq st ep E), Hh. now rewrite Hgate.
      * unfold handle. destruct (route rq); try discriminate E; simpl; auto.
        now destruct (receipts st !! id).
    + intros rqs rq' ep' Hh' E'. exists ep'. split; [exact E'|].
      now rewrite Hh', Hgate.
Qed.

End Decision.



(** C9, as stated, fails for the empty signature: the header parses and
    holds a signature string and no [txHash], and is answered Invalid
    Payment. *)
Lemma empty_signature_refused : ~ signature_only_accepted (H := sample_host) "".
Proof.
  intros Hc.
  specialize (Hc Sample.proof_empty_signature (JObj [("signature", JStr "")])
                eq_refl eq_refl eq_refl "verify/video" 0 []).
  vm_compute in Hc. discriminate Hc.
Qed.

(** The signature-only proof is let through when another hash is already
    recorded, and nothing is added. *)
Lemma signature_only_accepted_again_witness :
  x402Middleware (H := sample_host) "verify/video" (Some Sample.proof_signed)
    1767225601000 [(JStr "0xabc", 1767225600000)]
  = (Next, [(JStr "0xabc", 1767225600000)]).
Proof.
  apply (proj1 (signature_only_accepted_again (H := sample_host) "0xsig"
                  ltac:(discriminate))
           Sample.proof_signed (JObj [("signature", JStr "0xsig")]));
    reflexivity.
Defined.

(* --------------------------------------------------------------------- *)
(** *** A paid request that fails validation *)

Section FailedRequest.

Context `{Host}.

(** One step through a handler: a property read, a branch, the receipt. *)
Ltac handler_step :=
  match goal with
  | |- context [bind (Normal _) _] => cbn [bind]
  | |- context [bind Throw _] => cbn [bind]
  | |- context [bind ?c _] => destruct c
  | |- context [if ?c then _ else _] => destruct c
  | |- context [let '(_, _) := ?p in _] => destruct p
  end.

(** A handler that does not answer 200 leaves the receipts as they were. *)
Lemma handler_store (r : Route) handler (e : Env) (b : JSValue)
    (store store' : gmap string Receipt) (resp : Response) :
  handler_of r = Some handler ->
  handler e b store = Normal (resp, store') ->
  (exists receipt, resp = Ok receipt) \/ store' = store.
Proof.
  destruct r; simpl; intros Hh; try discriminate Hh; injection Hh as <-;
    unfold post_verify_move, post_verify_video, post_verify_choreography,
      post_verify_attribution, style_or_other;
    repeat handler_step; intros E; try discriminate E;
    injection E as <- <-; eauto.
Qed.

Lemma validation_failure_not_ok (receipt : Receipt) : ~ validation_failure (Ok receipt).
Proof. intros [[? E]|(? & ? & E)]; discriminate E. Qed.

(** C10, as amended. If a request to a paid route carries a valid, unused
    proof with a non-empty [txHash] and then fails validation (Bad Request,
    or Invalid Style on the move route), the hash is recorded as used all
    the same, no receipt is stored, and a later request with the same hash
    is answered Invalid Payment. *)
Theorem failed_request_consumes (s : string) : s <> "" -> consumed_by_failed_request s.
Proof.
  intros Hs rq st Hp Ha Hf. split; [|split].
  - now apply accepted_records.
  - destruct Ha as (ep & Hep & Hacc).
    destruct (handler_of_endpoint _ _ Hep) as [handler Hh].
    rewrite (handle_paid rq st ep handler Hep Hh) in *. unfold paid in *.
    destruct (x402Middleware ep (header rq) (now_gate (env rq)) (payments st)) as [[r|] m];
      [discriminate Hacc|].
    destruct (handler (env rq) (body rq) (receipts st)) as [[r store]|] eqn:E; simpl in *.
    + destruct (handler_store _ _ _ _ _ _ _ Hh E) as [[receipt ->]| ->].
      * now apply validation_failure_not_ok in Hf.
      * reflexivity.
    + reflexivity.
  - intros rqs rq' Hp'.
    erewrite recorded_refused; [reflexivity|exact Hs|exact Hp'|].
    apply run_mono. now apply accepted_records.
Qed.

End FailedRequest.

(** C10, as stated, fails for the empty string: the proof passes on its
    signature, the request is answered Bad Request, and nothing is
    recorded. *)
Lemma empty_reference_not_consumed : ~ consumed_by_failed_request (H := sample_host) "".
Proof.
  intros Hc.
  pose (rq := Sample.request PostVerifyMove (Some Sample.proof_empty_hash)
                (JObj []) Sample.env1).
  assert (Hp : presents (H := sample_host) rq "").
  { exists "verify/move", Sample.proof_empty_hash,
      (JObj [("txHash", JStr ""); ("signature", JStr "0xsig")]).
    repeat split; reflexivity. }
  assert (Ha : accepted (H := sample_host) rq initial_state).
  { exists "verify/move". split; reflexivity. }
  assert (Hf : validation_failure (fst (handle (H := sample_host) rq initial_state))).
  { left. eexists. reflexivity. }
  destruct (Hc rq initial_state Hp Ha Hf) as [E _].
  vm_compute in E. discriminate E.
Qed.

(** The hash 0xabc arrives with an unknown style on the move route: the
    answer is Invalid Style, no receipt is stored, and the retry with a
    valid body is answered Invalid Payment. *)
Lemma failed_request_consumes_witness :
  let rq := Sample.request PostVerifyMove (Some Sample.proof_abc)
              (JObj [("style", JStr "tango"); ("move_name", JStr "ocho")]) Sample.env1 in
  let retry := Sample.request PostVerifyMove (Some Sample.proof_abc)
              (JObj [("style", JStr "krump"); ("move_name", JStr "chest pop")]) Sample.env2 in
  fst (handle (H := sample_host) rq initial_state)
    = InvalidStyle (JStr "tango") DANCE_STYLES
  /\ payments_has (JStr "0xabc") (payments (snd (handle (H := sample_host) rq initial_state)))
     = true
  /\ receipts (snd (handle (H := sample_host) rq initial_state)) = receipts initial_state
  /\ fst (handle (H := sample_host) retry
            (run (H := sample_host) [] (snd (handle (H := sample_host) rq initial_state))))
     = PaymentInvalid.
Proof.
  cbv zeta. split; [reflexivity|].
  pose (rq := Sample.request PostVerifyMove (Some Sample.proof_abc)
                (JObj [("style", JStr "tango"); ("move_name", JStr "ocho")]) Sample.env1).
  assert (Hp : forall b e, presents (H := sample_host)
                 (Sample.request PostVerifyMove (Some Sample.proof_abc) b e) "0xabc").
  { intros b e. exists "verify/move", Sample.proof_abc,
      (JObj [("txHash", JStr "0xabc"); ("signature", JStr "0xsig")]).
    repeat split; reflexivity. }
  assert (Ha : accepted (H := sample_host) rq initial_state).
  { exists "verify/move". split; reflexivity. }
  assert (Hf : validation_failure (fst (handle (H := sample_host) rq initial_state))).
  { right. eexists _, _. reflexivity. }
  destruct (failed_request_consumes (H := sample_host) "0xabc" ltac:(discriminate)
              rq initial_state (Hp _ _) Ha Hf) as (E1 & E2 & E3).
  split; [exact E1|]. split; [exact E2|]. exact (E3 [] _ (Hp _ _)).
Defined.

(* --------------------------------------------------------------------- *)
(** *** Style resolution on the tolerant routes *)

Section Styles.

Context `{Host}.

Lemma style_or_other_unrecognized (s : string) :
  s <> "" -> unrecognized s -> style_or_other (JStr s) = Normal JNull.
Proof.
  intros Hs Hu. unfold style_or_other. cbn [JS.truthy].
  now rewrite (nonempty_true s Hs).
Qed.

Lemma style_or_other_falsy (style : JSValue) :
  JS.truthy style = false -> style_or_other style = Normal (JStr "other").
Proof. intros Hf. unfold style_or_other. now rewrite Hf. Qed.

(** On a tolerant route, once the required fields are there, the receipt
    is minted with whatever [style_or_other] returned, unless it is krump. *)
Lemma tolerant_receipt (r : Route) handler (e : Env) (b : JSValue)
    (store : gmap string Receipt) (style validStyle : JSValue) :
  tolerant r = true -> handler_of r = Some handler ->
  required_present r b = true ->
  JS.get b "style" = Normal style ->
  style_or_other style = Normal validStyle ->
  is_string validStyle "krump" = false ->
  exists receipt store',
    handler e b store = Normal (Ok receipt, store')
    /\ recorded_style receipt = validStyle.
Proof.
  intros Ht Hh Hr Hs Hv Hk.
  assert (Hget : forall k, JS.get b k = Normal (JS.get_opt b k)).
  { intros k. destruct (get_defined _ _ _ k Hs) as [y Hy].
    now rewrite (get_opt_get _ _ _ Hy). }
  pose proof (get_opt_get _ _ _ Hs) as Hstyle.
  destruct r; try discriminate Ht; injection Hh as <-; cbn [required_present] in Hr.
  - unfold post_verify_video. rewrite !Hget. cbn [bind].
    rewrite Hr, Hstyle, Hv. cbn [negb bind generateReceipt].
    eexists _, _. split; reflexivity.
  - unfold post_verify_choreography. rewrite !Hget. cbn [bind].
    apply orb_true_iff in Hr.
    assert (Hc : negb (JS.truthy (JS.get_opt b "video_url"))
                 && negb (JS.truthy (JS.get_opt b "moves")) = false).
    { destruct Hr as [-> | ->]; [reflexivity|apply andb_false_r]. }
    rewrite Hc, Hstyle, Hv. cbn [bind generateReceipt].
    eexists _, _. split; reflexivity.
  - unfold post_verify_attribution. rewrite !Hget. cbn [bind].
    apply andb_true_iff in Hr as [-> ->]. rewrite Hstyle, Hv. cbn [negb orb bind].
    unfold krump_lookup. rewrite Hk. cbn [bind generateReceipt].
    eexists _, _. split; reflexivity.
Qed.

(** A string whose lower-cased and trimmed form is the catch-all is
    validated to the catch-all. *)
Lemma style_or_other_normalized (s : string) :
  s <> "" -> trim (toLowerCase s) = "other" ->
  style_or_other (JStr s) = Normal (JStr "other").
Proof.
  intros Hs Hn. unfold style_or_other, validateStyle. cbn [JS.truthy bind].
  now rewrite (nonempty_true s Hs), Hn.
Qed.

(** [style_or_other] returns the catch-all for a falsy style and for a
    string that normalizes to the catch-all, and for nothing else. *)
Lemma style_or_other_other (style : JSValue) :
  style_or_other style = Normal (JStr "other") ->
  JS.truthy style = false
  \/ exists s, style = JStr s /\ trim (toLowerCase s) = "other".
Proof.
  unfold style_or_other. destruct (JS.truthy style) eqn:Ht; [|now left].
  intros Hv. right.
  destruct style as [| |x|x|s|items|props]; try discriminate Ht; try discriminate Hv.
  exists s. split; [reflexivity|].
  unfold validateStyle in Hv. cbn [bind] in Hv.
  destruct (includes DANCE_STYLES (JStr (trim (toLowerCase s)))); [|discriminate Hv].
  now injection Hv.
Qed.

(** On a tolerant route the style of a minted receipt is what
    [style_or_other] returned for the style of the body. *)
Lemma tolerant_recorded (r : Route) handler (e : Env) (b : JSValue)
    (store store' : gmap string Receipt) (style : JSValue) (receipt : Receipt) :
  tolerant r = true -> handler_of r = Some handler ->
  JS.get b "style" = Normal style ->
  handler e b store = Normal (Ok receipt, store') ->
  style_or_other style = Normal (recorded_style receipt).
Proof.
  intros Ht Hh Hs.
  assert (Hget : forall k, JS.get b k = Normal (JS.get_opt b k)).
  { intros k. destruct (get_defined _ _ _ k Hs) as [y Hy].
    now rewrite (get_opt_get _ _ _ Hy). }
  pose proof (get_opt_get _ _ _ Hs) as Hstyle.
  destruct r; try discriminate Ht; injection Hh as <-.
  - unfold post_verify_video. rewrite !Hget. cbn [bind]. rewrite Hstyle.
    destruct (negb (JS.truthy (JS.get_opt b "video_url"))); [discriminate|].
    destruct (style_or_other style) as [validStyle|]; cbn [bind]; [|discriminate].
    intros E. injection E as <- _. reflexivity.
  - unfold post_verify_choreography. rewrite !Hget. cbn [bind]. rewrite Hstyle.
    destruct (negb (JS.truthy (JS.get_opt b "video_url"))
              && negb (JS.truthy (JS.get_opt b "moves"))); [discriminate|].
    destruct (style_or_other style) as [validStyle|]; cbn [bind]; [|discriminate].
    intros E. injection E as <- _. reflexivity.
  - unfold post_verify_attribution. rewrite !Hget. cbn [bind]. rewrite Hstyle.
    destruct (negb (JS.truthy (JS.get_opt b "move_name"))
              || negb (JS.truthy (JS.get_opt b "claimed_creator"))); [discriminate|].
    destruct (style_or_other style) as [validStyle|]; cbn [bind]; [|discriminate].
    destruct (krump_lookup validStyle (JS.get_opt b "move_name")
                (JS.get_opt b "claimed_creator")) as [k|]; cbn [bind]; [|discriminate].
    intros E. injection E as <- _. reflexivity.
Qed.

(** C3, as amended. On the video, choreography and attribution routes, a
    request that passes the required-field check and supplies a non-empty
    style string that the validator does not recognize proceeds: a receipt
    is minted, and the style it records is [null], the no-match value of
    the validator. The catch-all [other] is recorded in two cases, and in
    no other: when the style is missing or falsy, and when the style is a
    string whose lower-cased and trimmed form is [other] itself. *)
Theorem unrecognized_style_recorded_null (r : Route) handler (e : Env) (b : JSValue)
    (store : gmap string Receipt) :
  tolerant r = true -> handler_of r = Some handler ->
  required_present r b = true ->
  (forall s, JS.get b "style" = Normal (JStr s) -> s <> "" -> unrecognized s ->
     exists receipt store',
       handler e b store = Normal (Ok receipt, store')
       /\ recorded_style receipt = JNull)
  /\ (forall style, JS.get b "style" = Normal style -> JS.truthy style = false ->
       exists receipt store',
         handler e b store = Normal (Ok receipt, store')
         /\ recorded_style receipt = JStr "other")
  /\ (forall s, JS.get b "style" = Normal (JStr s) -> s <> "" ->
       trim (toLowerCase s) = "other" ->
       exists receipt store',
         handler e b store = Normal (Ok receipt, store')
         /\ recorded_style receipt = JStr "other")
  /\ (forall style receipt store',
       JS.get b "style" = Normal style ->
       handler e b store = Normal (Ok receipt, store') ->
       recorded_style receipt = JStr "other" ->
       JS.truthy style = false
       \/ exists s, style = JStr s /\ trim (toLowerCase s) = "other").
Proof.
  intros Ht Hh Hr. split; [|split; [|split]].
  - intros s Hs Hne Hu.
    eapply tolerant_receipt; eauto using style_or_other_unrecognized.
  - intros style Hs Hf.
    eapply tolerant_receipt; eauto using style_or_other_falsy.
  - intros s Hs Hne Hn.
    eapply tolerant_receipt; eauto using style_or_other_normalized.
  - intros style receipt store' Hs Hok Hrec.
    apply style_or_other_other.
    rewrite (tolerant_recorded r handler e b store store' style receipt Ht Hh Hs Hok).
    now rewrite Hrec.
Qed.

End Styles.

(** C3, as stated, fails: the video route records [null] for the style
    tango, not the catch-all. *)
Lemma tango_not_other : ~ unrecognized_becomes_other (H := sample_host) "tango".
Proof.
  intros Hc.
  destruct (Hc PostVerifyVideo post_verify_video Sample.env1 Sample.video_body_tango
              (∅ : gmap string Receipt) eq_refl eq_refl eq_refl eq_refl eq_refl)
    as (receipt & store' & E & Hs).
  destruct (tolerant_receipt (H := sample_host) PostVerifyVideo post_verify_video
              Sample.env1 Sample.video_body_tango (∅ : gmap string Receipt)
              (JStr "tango") JNull eq_refl eq_refl eq_refl eq_refl eq_refl eq_refl)
    as (receipt' & store'' & E' & Hs').
  rewrite E in E'. injection E' as <- _. rewrite Hs' in Hs. discriminate Hs.
Qed.

(** The video request with the style tango gets a receipt whose style is
    [null]; with the style OTHER between spaces, a receipt whose style is
    the catch-all. *)
Lemma unrecognized_style_recorded_null_witness :
  (exists receipt store',
     post_verify_video (H := sample_host) Sample.env1 Sample.video_body_tango
       (∅ : gmap string Receipt) = Normal (Ok receipt, store')
     /\ recorded_style receipt = JNull)
  /\ (exists receipt store',
        post_verify_video (H := sample_host) Sample.env1
          (JObj [ ("style", JStr " OTHER ");
                  ("video_url", JStr "https://example.org/clip.mp4") ])
          (∅ : gmap string Receipt) = Normal (Ok receipt, store')
        /\ recorded_style receipt = JStr "other").
Proof.
  split.
  - apply (proj1 (unrecognized_style_recorded_null (H := sample_host)
                    PostVerifyVideo post_verify_video Sample.env1 Sample.video_body_tango
                    (∅ : gmap string Receipt) eq_refl eq_refl eq_refl) "tango").
    + reflexivity.
    + discriminate.
    + reflexivity.
  - apply (proj1 (proj2 (proj2 (unrecognized_style_recorded_null (H := sample_host)
                    PostVerifyVideo post_verify_video Sample.env1
                    (JObj [ ("style", JStr " OTHER ");
                            ("video_url", JStr "https://example.org/clip.mp4") ])
                    (∅ : gmap string Receipt) eq_refl eq_refl eq_refl))) " OTHER ").
    + reflexivity.
    + discriminate.
    + reflexivity.
Defined.

(* --------------------------------------------------------------------- *)
(** *** The move count of a choreography *)

Section MoveCount.

Context `{Host}.

Lemma style_or_other_string (s : string) :
  exists validStyle, style_or_other (JStr s) = Normal validStyle.
Proof.
  unfold style_or_other, validateStyle. cbn [bind].
  destruct (JS.truthy (JStr s)); eauto.
Qed.

(** The choreography handler on a body that holds the moves list [l]. *)
Lemma choreography_with_moves (e : Env) (b : JSValue) (store : gmap string Receipt)
    (l : list JSValue) :
  JS.get b "moves" = Normal (JArr l) ->
  post_verify_choreography e b store = Throw
  \/ exists receipt store',
       post_verify_choreography e b store = Normal (Ok receipt, store')
       /\ move_count receipt
          = JS.or (JNum (Number.of_nat (List.length l))) (JStr "pending_analysis").
Proof.
  intros Hm.
  assert (Hget : forall k, JS.get b k = Normal (JS.get_opt b k)).
  { intros k. destruct (get_defined _ _ _ k Hm) as [y Hy].
    now rewrite (get_opt_get _ _ _ Hy). }
  unfold post_verify_choreography. rewrite !Hget. cbn [bind].
  rewrite (get_opt_get _ _ _ Hm). cbn [JS.truthy negb]. rewrite andb_false_r.
  destruct (style_or_other (JS.get_opt b "style")) as [validStyle|]; cbn [bind];
    [right|now left].
  cbn [generateReceipt]. eexists _, _. split; reflexivity.
Qed.

(** C6, as amended. On the choreography route, whenever a non-empty moves
    list is supplied in the body, the [move_count] of the minted receipt is
    the length of that list; when a moves list is supplied, the value
    pending_analysis appears as [move_count] only if the list is empty.
    With a moves list and a style that is falsy or a string, a receipt is
    minted. *)
Theorem move_count_of_list (l : list JSValue) :
  (l <> [] -> move_count_is_length l)
  /\ (forall e b store receipt store',
        JS.get b "moves" = Normal (JArr l) ->
        post_verify_choreography e b store = Normal (Ok receipt, store') ->
        move_count receipt = JStr "pending_analysis" -> l = [])
  /\ (forall e b store style,
        JS.get b "moves" = Normal (JArr l) ->
        JS.get b "style" = Normal style ->
        JS.truthy style = false \/ (exists s, style = JStr s) ->
        exists receipt store',
          post_verify_choreography e b store = Normal (Ok receipt, store')).
Proof.
  split; [|split].
  - intros Hl e b store receipt store' Hm E.
    destruct (choreography_with_moves e b store l Hm) as [T|(r' & s' & E' & Hc)];
      rewrite E in *; [discriminate T|]. injection E' as <- <-. rewrite Hc.
    destruct l as [|x l]; [contradiction|].
    unfold JS.or. cbn [JS.truthy List.length]. now rewrite of_nat_truthy.
  - intros e b store receipt store' Hm E Hp.
    destruct (choreography_with_moves e b store l Hm) as [T|(r' & s' & E' & Hc)];
      rewrite E in *; [discriminate T|]. injection E' as <- <-. rewrite Hc in Hp.
    destruct l as [|x l]; [reflexivity|].
    unfold JS.or in Hp. cbn [JS.truthy List.length] in Hp.
    rewrite of_nat_truthy in Hp. discriminate Hp.
  - intros e b store style Hm Hs Hshape.
    destruct (choreography_with_moves e b store l Hm) as [T|(r' & s' & E' & _)]; [|eauto].
    exfalso. revert T.
    assert (Hget : forall k, JS.get b k = Normal (JS.get_opt b k)).
    { intros k. destruct (get_defined _ _ _ k Hm) as [y Hy].
      now rewrite (get_opt_get _ _ _ Hy). }
    unfold post_verify_choreography. rewrite !Hget. cbn [bind].
    rewrite (get_opt_get _ _ _ Hm), (get_opt_get _ _ _ Hs).
    cbn [JS.truthy negb]. rewrite andb_false_r.
    destruct Hshape as [Hf|[s ->]].
    + rewrite (style_or_other_falsy style Hf). cbn. discriminate.
    + destruct (style_or_other_string s) as [validStyle ->]. cbn. discriminate.
Qed.

End MoveCount.

(** C6, as stated, fails for the empty list: its length is the falsy
    Number 0, and pending_analysis takes its place. *)
Lemma empty_moves_not_counted : ~ move_count_is_length (H := sample_host) [].
Proof.
  intros Hc.
  assert (E : exists receipt store',
             post_verify_choreography (H := sample_host) Sample.env1
               (JObj [("moves", JArr [])]) (∅ : gmap string Receipt)
             = Normal (Ok receipt, store')
             /\ move_count receipt = JStr "pending_analysis").
  { eexists _, _. split; reflexivity. }
  destruct E as (receipt & store' & E & Hp).
  specialize (Hc Sample.env1 (JObj [("moves", JArr [])]) (∅ : gmap string Receipt)
                receipt store' eq_refl E).
  rewrite Hp in Hc. discriminate Hc.
Qed.

(** A list of two moves is counted as 2. *)
Lemma move_count_of_list_witness :
  exists receipt store',
    post_verify_choreography (H := sample_host) Sample.env1
      (JObj [("moves", JArr [JStr "stomp"; JStr "jab"])]) (∅ : gmap string Receipt)
    = Normal (Ok receipt, store')
    /\ move_count receipt = JNum (Number.of_nat 2).
Proof.
  pose proof (move_count_of_list (H := sample_host) [JStr "stomp"; JStr "jab"])
    as (Hlen & _ & Hmint).
  destruct (Hmint Sample.env1 (JObj [("moves", JArr [JStr "stomp"; JStr "jab"])])
              (∅ : gmap string Receipt) JUndefined eq_refl eq_refl (or_introl eq_refl))
    as (receipt & store' & E).
  exists receipt, store'. split; [exact E|].
  exact (Hlen ltac:(discriminate) Sample.env1
           (JObj [("moves", JArr [JStr "stomp"; JStr "jab"])]) (∅ : gmap string Receipt)
           receipt store' eq_refl E).
Defined.

(* --------------------------------------------------------------------- *)
(** *** The style validator *)

Section Validator.

Context `{Host}.

Lemma includes_In (styles : list string) (n : string) :
  includes styles (JStr n) = true <-> In n styles.
Proof.
  unfold includes. rewrite existsb_exists. split.
  - intros (d & Hd & E). cbn in E. apply String.eqb_eq in E. now subst.
  - intros Hn. exists n. split; [exact Hn|]. cbn. apply String.eqb_refl.
Qed.

Lemma validateStyle_string (s : string) :
  validateStyle (JStr s)
  = Normal (if includes DANCE_STYLES (JStr (trim (toLowerCase s)))
            then JStr (trim (toLowerCase s)) else JNull).
Proof. reflexivity. Qed.

Lemma lower_char_ascii (c : ascii) :
  Str.is_ascii_char c = true -> Str.is_ascii_char (Str.lower_char c) = true.
Proof. destruct c as [[] [] [] [] [] [] [] []]; vm_compute; auto. Qed.

Lemma ascii_lower_ascii (s : string) :
  Str.is_ascii s = true -> Str.is_ascii (Str.ascii_lower s) = true.
Proof.
  induction s as [|c s IH]; cbn [Str.is_ascii Str.ascii_lower]; [auto|].
  intros Hs. apply andb_true_iff in Hs as [Hc Hs].
  now rewrite (lower_char_ascii c Hc), (IH Hs).
Qed.

(** On an ASCII string the normal form is the ASCII one. *)
Lemma normalize_ascii (s : string) :
  Str.is_ascii s = true ->
  trim (toLowerCase s) = Str.ascii_trim (Str.ascii_lower s).
Proof.
  intros Hs. rewrite (toLowerCase_ascii s Hs).
  apply trim_ascii. now apply ascii_lower_ascii.
Qed.

(** Every recognized style is its own normal form. *)
Lemma normalize_member (n : string) :
  In n DANCE_STYLES -> trim (toLowerCase n) = n.
Proof.
  intros Hn. cbn in Hn.
  repeat (destruct Hn as [<-|Hn]; [now rewrite normalize_ascii by reflexivity|]).
  contradiction.
Qed.

Lemma validateStyle_member (n : string) :
  In n DANCE_STYLES -> validateStyle (JStr n) = Normal (JStr n).
Proof.
  intros Hn. rewrite validateStyle_string, (normalize_member n Hn).
  apply includes_In in Hn. now rewrite Hn.
Qed.

(** C8. [validateStyle] is a function of its argument alone. On a string
    it lower-cases and trims, and returns the result when it is one of
    [DANCE_STYLES] and [null] otherwise. It is idempotent: applied to a
    style it returned, it returns that style. It is insensitive to case
    and surrounding whitespace: two strings with the same lower-cased and
    trimmed form get the same answer, and the strings KRUMP between spaces
    and krump both give krump. *)
Theorem validateStyle_normalizes (s : string) :
  let n := trim (toLowerCase s) in
  (In n DANCE_STYLES -> validateStyle (JStr s) = Normal (JStr n))
  /\ (~ In n DANCE_STYLES -> validateStyle (JStr s) = Normal JNull)
  /\ (forall n', validateStyle (JStr s) = Normal (JStr n') ->
        validateStyle (JStr n') = Normal (JStr n'))
  /\ (forall s', Str.is_ascii s = true -> Str.is_ascii s' = true ->
        Str.ascii_trim (Str.ascii_lower s') = Str.ascii_trim (Str.ascii_lower s) ->
        validateStyle (JStr s') = validateStyle (JStr s))
  /\ validateStyle (JStr "  KRUMP ") = Normal (JStr "krump")
  /\ validateStyle (JStr "krump") = Normal (JStr "krump").
Proof.
  cbv zeta. repeat split.
  - intros Hn. rewrite validateStyle_string. apply includes_In in Hn. now rewrite Hn.
  - intros Hn. rewrite validateStyle_string.
    destruct (includes DANCE_STYLES (JStr (trim (toLowerCase s)))) eqn:E; [|reflexivity].
    apply includes_In in E. now elim Hn.
  - intros n'. rewrite validateStyle_string.
    destruct (includes DANCE_STYLES (JStr (trim (toLowerCase s)))) eqn:E;
      intros En; [|discriminate En].
    injection En as <-. apply validateStyle_member. now apply includes_In.
  - intros s' Hs Hs' En. rewrite !validateStyle_string.
    now rewrite (normalize_ascii s Hs), (normalize_ascii s' Hs'), En.
  - rewrite validateStyle_string. now rewrite normalize_ascii by reflexivity.
  - apply validateStyle_member. cbn. auto.
Qed.

End Validator.

(** KRUMP between spaces is ASCII and normalizes to the member krump: it
    validates to krump, which validates to itself, and the string Krump,
    which has the same normal form, gets the same answer. *)
Lemma validateStyle_normalizes_witness :
  validateStyle (H := sample_host) (JStr "  KRUMP ") = Normal (JStr "krump")
  /\ validateStyle (H := sample_host) (JStr "krump") = Normal (JStr "krump")
  /\ validateStyle (H := sample_host) (JStr "Krump")
     = validateStyle (H := sample_host) (JStr "  KRUMP ").
Proof.
  pose proof (validateStyle_normalizes (H := sample_host) "  KRUMP ")
    as (Hin & _ & Hidem & Hsame & _).
  assert (E : validateStyle (H := sample_host) (JStr "  KRUMP ") = Normal (JStr "krump")).
  { apply Hin. cbn. auto. }
  split; [exact E|]. split; [exact (Hidem _ E)|].
  apply Hsame; reflexivity.
Defined.

(* --------------------------------------------------------------------- *)
(** *** Attribution against the krump table *)

Section Attribution.

Context `{Host}.

(** The lookup on the krump style for a move of the table: the record of
    the move, and whether the claimed creator is the recorded one up to
    letter case. *)
Lemma krump_lookup_known (move c creator era : string) :
  own_move (toLowerCase move) knownMoves = Some (creator, era) ->
  krump_lookup (JStr "krump") (JStr move) (JStr c)
  = Normal (JObj
      [ ("known_origin", JObj [ ("creator", JStr creator); ("era", JStr era) ]);
        ("match", JBool (String.eqb (toLowerCase creator) (toLowerCase c))) ]).
Proof.
  intros Hk. unfold krump_lookup. cbn [is_string call_toLowerCase bind].
  change (String.eqb "krump" "krump") with true. cbv iota.
  now rewrite Hk.
Qed.

(** The attribution handler on a krump move of the table. *)
Lemma attribution_known (e : Env) (b : JSValue) (store : gmap string Receipt)
    (move c creator era : string) :
  JS.get b "move_name" = Normal (JStr move) ->
  JS.get b "claimed_creator" = Normal (JStr c) ->
  JS.get b "style" = Normal (JStr "krump") ->
  move <> "" -> c <> "" ->
  own_move (toLowerCase move) knownMoves = Some (creator, era) ->
  exists receipt store',
    post_verify_attribution e b store = Normal (Ok receipt, store')
    /\ krump_database_match receipt
       = JObj [ ("known_origin", JObj [ ("creator", JStr creator); ("era", JStr era) ]);
                ("match", JBool (String.eqb (toLowerCase creator) (toLowerCase c))) ]
    /\ verification_status receipt
       = if String.eqb (toLowerCase creator) (toLowerCase c)
         then JStr "likely_accurate" else JStr "unverified".
Proof.
  intros Hm Hc Hs Hmove Hcre Hk.
  assert (Hget : forall k, JS.get b k = Normal (JS.get_opt b k)).
  { intros k. destruct (get_defined _ _ _ k Hm) as [y Hy].
    now rewrite (get_opt_get _ _ _ Hy). }
  unfold post_verify_attribution. rewrite !Hget. cbn [bind].
  rewrite (get_opt_get _ _ _ Hm), (get_opt_get _ _ _ Hc), (get_opt_get _ _ _ Hs).
  cbn [JS.truthy]. rewrite (nonempty_true move Hmove), (nonempty_true c Hcre).
  cbn [negb orb]. unfold style_or_other. cbn [JS.truthy].
  change (Str.nonempty "krump") with true. cbv iota.
  rewrite (validateStyle_member "krump") by (cbn; auto). cbn [bind].
  rewrite (krump_lookup_known move c creator era Hk). cbn [bind generateReceipt].
  eexists _, _. split; [reflexivity|]. split; [reflexivity|].
  unfold verification_status. cbn.
  now destruct (String.eqb (toLowerCase creator) (toLowerCase c)).
Qed.

(** C7. On the attribution route, for the move chest pop and the style
    krump, the claimed creator Tight Eyez gets a match in the krump table
    and the status likely_accurate, and the claimed creator Someone Else
    gets the status unverified. The claim is compared with the creator of
    the table entry for equality after both are lower-cased, and so it is
    for every move of the table. *)
Theorem chest_pop_attribution (e : Env) (b : JSValue) (store : gmap string Receipt)
    (c : string) :
  JS.get b "move_name" = Normal (JStr "chest pop") ->
  JS.get b "style" = Normal (JStr "krump") ->
  JS.get b "claimed_creator" = Normal (JStr c) ->
  c <> "" ->
  (exists receipt store',
     post_verify_attribution e b store = Normal (Ok receipt, store')
     /\ krump_database_match receipt
        = JObj [ ("known_origin",
                   JObj [ ("creator", JStr "Tight Eyez"); ("era", JStr "2000-2004") ]);
                 ("match", JBool (String.eqb (toLowerCase "Tight Eyez") (toLowerCase c))) ]
     /\ (verification_status receipt = JStr "likely_accurate"
         <-> toLowerCase c = toLowerCase "Tight Eyez")
     /\ (verification_status receipt <> JStr "likely_accurate"
         -> verification_status receipt = JStr "unverified")
     /\ (c = "Tight Eyez" -> verification_status receipt = JStr "likely_accurate")
     /\ (c = "Someone Else" -> verification_status receipt = JStr "unverified"))
  /\ (forall move creator era claimed,
        own_move (toLowerCase move) knownMoves = Some (creator, era) ->
        krump_lookup (JStr "krump") (JStr move) (JStr claimed)
        = Normal (JObj
            [ ("known_origin", JObj [ ("creator", JStr creator); ("era", JStr era) ]);
              ("match", JBool (String.eqb (toLowerCase creator) (toLowerCase claimed))) ])).
Proof.
  intros Hm Hs Hc Hne. split; [|intros; now apply krump_lookup_known].
  assert (Hk : own_move (toLowerCase "chest pop") knownMoves
               = Some ("Tight Eyez", "2000-2004")).
  { now rewrite toLowerCase_ascii by reflexivity. }
  destruct (attribution_known e b store "chest pop" c "Tight Eyez" "2000-2004"
              Hm Hc Hs ltac:(discriminate) Hne Hk) as (receipt & store' & E & Hmatch & Hst).
  exists receipt, store'. split; [exact E|]. split; [exact Hmatch|].
  rewrite Hst. clear Hst Hmatch E.
  destruct (String.eqb_spec (toLowerCase "Tight Eyez") (toLowerCase c)) as [Eq|Ne].
  - repeat split; auto.
    + intros Hn. now elim Hn.
    + intros ->. rewrite toLowerCase_ascii in Eq by reflexivity.
      rewrite toLowerCase_ascii in Eq by reflexivity. discriminate Eq.
  - repeat split; auto; try discriminate.
    + intros Eq. now elim Ne.
    + intros ->. now elim Ne.
Qed.

End Attribution.

(** The two requests of the design document, on the sample host. *)
Lemma chest_pop_attribution_witness :
  (exists receipt store',
     post_verify_attribution (H := sample_host) Sample.env1
       (JObj [ ("move_name", JStr "chest pop"); ("style", JStr "krump");
               ("claimed_creator", JStr "Tight Eyez") ]) (∅ : gmap string Receipt)
     = Normal (Ok receipt, store')
     /\ verification_status receipt = JStr "likely_accurate")
  /\ (exists receipt store',
        post_verify_attribution (H := sample_host) Sample.env1
          (JObj [ ("move_name", JStr "chest pop"); ("style", JStr "krump");
                  ("claimed_creator", JStr "Someone Else") ]) (∅ : gmap string Receipt)
        = Normal (Ok receipt, store')
        /\ verification_status receipt = JStr "unverified").
Proof.
  split.
  - destruct (proj1 (chest_pop_attribution (H := sample_host) Sample.env1
                (JObj [ ("move_name", JStr "chest pop"); ("style", JStr "krump");
                        ("claimed_creator", JStr "Tight Eyez") ])
                (∅ : gmap string Receipt) "Tight Eyez"
                eq_refl eq_refl eq_refl ltac:(discriminate)))
      as (receipt & store' & E & _ & _ & _ & Hyes & _).
    exists receipt, store'. split; [exact E|exact (Hyes eq_refl)].
  - destruct (proj1 (chest_pop_attribution (H := sample_host) Sample.env1
                (JObj [ ("move_name", JStr "chest pop"); ("style", JStr "krump");
                        ("claimed_creator", JStr "Someone Else") ])
                (∅ : gmap string Receipt) "Someone Else"
                eq_refl eq_refl eq_refl ltac:(discriminate)))
      as (receipt & store' & E & _ & _ & _ & _ & Hno).
    exists receipt, store'. split; [exact E|exact (Hno eq_refl)].
Defined.

(** A paid request without a header and with an empty body is asked to
    pay; the same body with an unused proof is answered Bad Request, after
    the gate has let it through. *)
Lemma gate_before_validation_witness :
  handle (H := sample_host)
    (Sample.request PostVerifyMove None (JObj []) Sample.env1) initial_state
  = (PaymentRequired (createPaymentRequired (H := sample_host) "verify/move"), initial_state)
  /\ accepted (H := sample_host)
       (Sample.request PostVerifyMove (Some Sample.proof_abc) (JObj []) Sample.env1)
       initial_state.
Proof.
  split.
  - apply (proj1 (gate_before_validation (H := sample_host)
                    (Sample.request PostVerifyMove None (JObj []) Sample.env1)
                    initial_state) "verify/move"); reflexivity.
  - apply (proj1 (proj2 (gate_before_validation (H := sample_host)
                    (Sample.request PostVerifyMove (Some Sample.proof_abc) (JObj [])
                       Sample.env1)
                    initial_state)) "Required fields: style, move_name").
    reflexivity.
Defined.

(* ===================================================================== *)
(** ** Further properties: the receipt store *)
(* ===================================================================== *)

Section Ledger.

Context `{Host}.

(** [generateReceipt] stores the receipt under its id. *)
Lemma generateReceipt_store (uuid : string) (timestamp : Z) (data : ReceiptData)
    (store store' : gmap string Receipt) (receipt : Receipt) :
  generateReceipt uuid timestamp data store = (receipt, store') ->
  store' = <[receipt_id receipt := receipt]> store.
Proof. unfold generateReceipt. intros E. injection E as <- <-. reflexivity. Qed.

(** One step through a handler that keeps the equation of the mint. *)
Ltac mint_step :=
  match goal with
  | |- context [bind (Normal _) _] => cbn [bind]
  | |- context [bind Throw _] => cbn [bind]
  | |- context [bind ?c _] => destruct c
  | |- context [if ?c then _ else _] => destruct c
  | |- context [let '(_, _) := ?p in _] => destruct p as [? ?] eqn:?
  end.

(** A handler that answers 200 has stored the receipt under its id, and
    changed nothing else. *)
Lemma handler_ok_store (r : Route) handler (e : Env) (b : JSValue)
    (store store' : gmap string Receipt) (receipt : Receipt) :
  handler_of r = Some handler ->
  handler e b store = Normal (Ok receipt, store') ->
  store' = <[receipt_id receipt := receipt]> store.
Proof.
  destruct r; simpl; intros Hh; try discriminate Hh; injection Hh as <-;
    unfold post_verify_move, post_verify_video, post_verify_choreography,
      post_verify_attribution, style_or_other;
    repeat mint_step; intros E; try discriminate E;
    injection E as <- <-; eapply generateReceipt_store; eassumption.
Qed.

(** What one request does to the receipt store: nothing, unless the answer
    is the 200 of a paid route, which stores the receipt under its id. *)
Lemma handle_receipts (rq : Request) (st : State) :
  (receipts (snd (handle rq st)) = receipts st
   /\ (endpoint_of (route rq) <> None ->
       forall receipt, fst (handle rq st) <> Ok receipt))
  \/ (exists receipt,
       endpoint_of (route rq) <> None
       /\ fst (handle rq st) = Ok receipt
       /\ receipts (snd (handle rq st)) = <[receipt_id receipt := receipt]> (receipts st)).
Proof.
  destruct (endpoint_of (route rq)) as [ep|] eqn:E.
  - destruct (handler_of_endpoint _ _ E) as [handler Hh].
    rewrite (handle_paid rq st ep handler E Hh). unfold paid.
    destruct (x402Middleware_cases ep (header rq) (now_gate (env rq)) (payments st))
      as [G|[G|G]]; rewrite G; cbn [fst snd receipts];
      try (left; split; [reflexivity|intros _ receipt; discriminate]).
    destruct (handler (env rq) (body rq) (receipts st)) as [[resp store]|] eqn:Eh;
      cbn [fst snd receipts];
      [|left; split; [reflexivity|intros _ receipt; discriminate]].
    destruct (handler_store _ _ _ _ _ _ _ Hh Eh) as [[receipt ->]| ->].
    + right. exists receipt. split; [discriminate|]. split; [reflexivity|].
      exact (handler_ok_store _ _ _ _ _ _ _ Hh Eh).
    + destruct resp; try (left; split; [reflexivity|intros _ receipt; discriminate]).
      right. exists r. split; [discriminate|]. split; [reflexivity|].
      exact (handler_ok_store _ _ _ _ _ _ _ Hh Eh).
  - left. split; [|intros Hn; now elim Hn].
    unfold handle. destruct (route rq); try discriminate E; cbn; auto.
    now destruct (receipts st !! id).
Qed.

(** X1. Round trip of a receipt: when a paid route answers 200 with a
    receipt, GET /receipt/:id with the id of that receipt, served from the
    state the request left, answers 200 with the same receipt and changes
    nothing. *)
Theorem minted_receipt_is_served (rq : Request) (st st' : State) (receipt : Receipt)
    (e : Env) (h : option string) (b : JSValue) :
  endpoint_of (route rq) <> None ->
  handle rq st = (Ok receipt, st') ->
  handle {| route := GetReceipt (receipt_id receipt); header := h; body := b; env := e |} st'
  = (Ok receipt, st').
Proof.
  intros Hp Hr.
  destruct (handle_receipts rq st) as [[_ Hno]|(receipt' & _ & Hok & Hst)].
  - exfalso. apply (Hno Hp receipt). now rewrite Hr.
  - rewrite Hr in Hok, Hst. cbn [fst snd] in Hok, Hst. injection Hok as <-.
    unfold handle. cbn [route]. rewrite Hst. now rewrite lookup_insert_eq.
Qed.

(** The keys of the store are the ids of the receipts it holds. *)
Definition well_keyed (store : gmap string Receipt) : Prop :=
  forall id receipt, store !! id = Some receipt -> receipt_id receipt = id.

Lemma handle_well_keyed (rq : Request) (st : State) :
  well_keyed (receipts st) -> well_keyed (receipts (snd (handle rq st))).
Proof.
  intros Hw. destruct (handle_receipts rq st) as [[-> _]|(receipt & _ & _ & ->)];
    [exact Hw|].
  intros id r. rewrite lookup_insert. case_decide as Hid.
  - intros E. injection E as <-. exact Hid.
  - apply Hw.
Qed.

Lemma run_well_keyed (rqs : list Request) (st : State) :
  well_keyed (receipts st) -> well_keyed (receipts (run rqs st)).
Proof.
  revert st. induction rqs as [|rq rqs IH]; cbn [run]; intros st Hw; [exact Hw|].
  apply IH. now apply handle_well_keyed.
Qed.

(** X2. Whatever requests the server has served since it started, GET
    /receipt/:id answers either 404 or 200 with a receipt whose id is the
    one asked for, and leaves the state as it is. *)
Theorem served_receipt_has_requested_id (rqs : list Request) (id : string)
    (e : Env) (h : option string) (b : JSValue) :
  let st := run rqs initial_state in
  let rq := {| route := GetReceipt id; header := h; body := b; env := e |} in
  snd (handle rq st) = st
  /\ (fst (handle rq st) = NotFound
      \/ exists receipt, fst (handle rq st) = Ok receipt /\ receipt_id receipt = id).
Proof.
  cbv zeta. unfold handle. cbn [route].
  assert (Hw : well_keyed (receipts (run rqs initial_state))).
  { apply run_well_keyed. intros i r. cbn. now rewrite lookup_empty. }
  destruct (receipts (run rqs initial_state) !! id) as [receipt|] eqn:E; cbn [fst snd].
  - split; [reflexivity|]. right. exists receipt. split; [reflexivity|]. now apply Hw.
  - split; [reflexivity|]. now left.
Qed.






End Ledger.

(** A video request with a signature-only proof gets a receipt, and the
    receipt is served back under its id. *)
Lemma minted_receipt_is_served_witness :
  let out := handle (H := sample_host)
               (Sample.request PostVerifyVideo (Some Sample.proof_signed)
                  Sample.video_body Sample.env1) initial_state in
  exists receipt,
    fst out = Ok receipt
    /\ handle (H := sample_host)
         (Sample.request (GetReceipt (receipt_id receipt)) None JUndefined Sample.env2)
         (snd out)
       = (Ok receipt, snd out).
Proof.
  cbv zeta.
  assert (Hr : exists receipt,
             fst (handle (H := sample_host)
                    (Sample.request PostVerifyVideo (Some Sample.proof_signed)
                       Sample.video_body Sample.env1) initial_state) = Ok receipt).
  { eexists. reflexivity. }
  destruct Hr as [receipt Hr]. exists receipt. split; [exact Hr|].
  apply (minted_receipt_is_served (H := sample_host)
           (Sample.request PostVerifyVideo (Some Sample.proof_signed)
              Sample.video_body Sample.env1) initial_state).
  - discriminate.
  - rewrite <- Hr. apply surjective_pairing.
Defined.


(* ===================================================================== *)
(** ** Further properties: what changes the state *)
(* ===================================================================== *)

Section StateChanges.

Context `{Host}.

Local Open Scope list_scope.

Ltac answer_step :=
  match goal with
  | |- context [bind (Normal _) _] => cbn [bind]
  | |- context [bind Throw _] => cbn [bind]
  | |- context [bind ?c _] => destruct c
  | |- context [if ?c then _ else _] => destruct c
  | |- context [let '(_, _) := ?p in _] => destruct p
  end.

(** A handler answers 200 or 400, nothing else. *)
Lemma handler_answers (r : Route) handler (e : Env) (b : JSValue)
    (store store' : gmap string Receipt) (resp : Response) :
  handler_of r = Some handler ->
  handler e b store = Normal (resp, store') ->
  (exists receipt, resp = Ok receipt) \/ validation_failure resp.
Proof.
  destruct r; simpl; intros Hh; try discriminate Hh; injection Hh as <-;
    unfold post_verify_move, post_verify_video, post_verify_choreography,
      post_verify_attribution, style_or_other, validation_failure;
    repeat answer_step; intros E; try discriminate E;
    injection E as <- <-; eauto.
Qed.

(** A key that is not there is appended. *)
Lemma payments_set_fresh (k : JSValue) (t : Z) (m : list (JSValue * Z)) :
  payments_has k m = false -> payments_set k t m = m ++ [(k, t)].
Proof.
  induction m as [|[k0 v0] m IH]; cbn [payments_has existsb payments_set fst app];
    [reflexivity|].
  intros Hk. apply orb_false_iff in Hk as [Hk0 Hk]. rewrite Hk0.
  now rewrite (IH Hk).
Qed.

(** What the middleware does to [payments]: nothing when it rejects, and
    at most one entry appended when it calls [next]. *)
Lemma x402Middleware_payments (ep : string) (h : option string) (now : Z)
    (m : list (JSValue * Z)) :
  (exists r, x402Middleware ep h now m = (Reject r, m))
  \/ x402Middleware ep h now m = (Next, m)
  \/ (exists tx, x402Middleware ep h now m = (Next, m ++ [(tx, now)])).
Proof.
  destruct (header_missing h) eqn:Hm.
  - left. unfold x402Middleware. rewrite Hm. eauto.
  - destruct h as [t|]; [|discriminate Hm].
    assert (Ht : t <> "").
    { intros ->. discriminate Hm. }
    destruct (JSON_parse t) as [v|] eqn:Hp.
    + rewrite (gate_parsed ep t v now m Hp). cbv zeta.
      destruct (JS.truthy (JS.get_opt v "txHash"));
        destruct (JS.truthy (JS.get_opt v "signature"));
        destruct (payments_has (JS.get_opt v "txHash") m) eqn:Eh; cbn [negb andb];
        eauto; right; right; rewrite (payments_set_fresh _ _ _ Eh); eauto.
    + left. rewrite (gate_unparsed ep t now m Ht Hp). eauto.
Qed.

(** X4. Only a request that passes the payment gate changes anything. A
    402 answer (Payment Required or Invalid Payment) and every free route
    leave the whole state as it was; and unless the answer is a 200, the
    receipts are as they were. *)
Theorem refused_request_changes_nothing (rq : Request) (st : State) :
  (forall payment, fst (handle rq st) = PaymentRequired payment -> snd (handle rq st) = st)
  /\ (fst (handle rq st) = PaymentInvalid -> snd (handle rq st) = st)
  /\ (endpoint_of (route rq) = None -> snd (handle rq st) = st)
  /\ ((forall receipt, fst (handle rq st) <> Ok receipt) ->
      receipts (snd (handle rq st)) = receipts st).
Proof.
  assert (Hfree : endpoint_of (route rq) = None -> snd (handle rq st) = st).
  { intros E. unfold handle. destruct (route rq); try discriminate E; cbn; auto.
    now destruct (receipts st !! id). }
  assert (H402 : forall r, fst (handle rq st) = r ->
                 (exists payment, r = PaymentRequired payment) \/ r = PaymentInvalid ->
                 snd (handle rq st) = st).
  { intros r Hr Hshape. destruct (endpoint_of (route rq)) as [ep|] eqn:E; [|auto].
    destruct (handler_of_endpoint _ _ E) as [handler Hh].
    rewrite (handle_paid rq st ep handler E Hh) in *. unfold paid in *.
    destruct (x402Middleware_payments ep (header rq) (now_gate (env rq)) (payments st))
      as [[r0 G]|[G|[tx G]]]; rewrite G in *; cbn [fst snd] in *.
    - now destruct st.
    - destruct (handler (env rq) (body rq) (receipts st)) as [[resp store]|] eqn:Eh;
        cbn [fst] in Hr; subst r.
      + destruct (handler_answers _ _ _ _ _ _ _ Hh Eh) as [[receipt ->]|Hv];
          [destruct Hshape as [[? ?]| ?]; discriminate|].
        destruct Hv as [[? ->]|(? & ? & ->)]; destruct Hshape as [[? ?]| ?]; discriminate.
      + destruct Hshape as [[? ?]| ?]; discriminate.
    - destruct (handler (env rq) (body rq) (receipts st)) as [[resp store]|] eqn:Eh;
        cbn [fst] in Hr; subst r.
      + destruct (handler_answers _ _ _ _ _ _ _ Hh Eh) as [[receipt ->]|Hv];
          [destruct Hshape as [[? ?]| ?]; discriminate|].
        destruct Hv as [[? ->]|(? & ? & ->)]; destruct Hshape as [[? ?]| ?]; discriminate.
      + destruct Hshape as [[? ?]| ?]; discriminate. }
  split; [|split; [|split]].
  - intros payment Hr. apply (H402 _ Hr). left. eauto.
  - intros Hr. apply (H402 _ Hr). now right.
  - exact Hfree.
  - intros Hno. destruct (handle_receipts rq st) as [[E _]|(receipt & _ & Hok & _)];
      [exact E|]. now elim (Hno receipt).
Qed.

Lemma handle_appends (rq : Request) (st : State) :
  exists ext, payments (snd (handle rq st)) = payments st ++ ext
              /\ (List.length ext <= 1)%nat.
Proof.
  destruct (endpoint_of (route rq)) as [ep|] eqn:E.
  - rewrite (handle_payments rq st ep E).
    destruct (x402Middleware_payments ep (header rq) (now_gate (env rq)) (payments st))
      as [[r0 G]|[G|[tx G]]]; rewrite G; cbn [snd].
    + exists []. rewrite app_nil_r. split; [reflexivity|cbn; lia].
    + exists []. rewrite app_nil_r. split; [reflexivity|cbn; lia].
    + exists [(tx, now_gate (env rq))]. split; [reflexivity|cbn; lia].
  - exists []. rewrite app_nil_r. split; [|cbn; lia].
    unfold handle. destruct (route rq); try discriminate E; cbn; auto.
    now destruct (receipts st !! id).
Qed.

(** X5. The record of used proofs is append-only. After any sequence of
    requests it is the record from before followed by new entries, at most
    one for each request: no entry is removed, reordered or rewritten, so
    the time kept with a hash is the time of its first use. *)
Theorem payments_append_only (rqs : list Request) (st : State) :
  exists ext, payments (run rqs st) = payments st ++ ext
              /\ (List.length ext <= List.length rqs)%nat.
Proof.
  revert st. induction rqs as [|rq rqs IH]; cbn [run]; intros st.
  - exists []. rewrite app_nil_r. split; [reflexivity|cbn; lia].
  - destruct (handle_appends rq st) as (ext1 & E1 & L1).
    destruct (IH (snd (handle rq st))) as (ext2 & E2 & L2).
    exists (ext1 ++ ext2). rewrite E2, E1, <- app_assoc. split; [reflexivity|].
    rewrite length_app. cbn [List.length]. lia.
Qed.

(** No stored key equals an array or an object. *)
Lemma structured_key_absent (tx : JSValue) (m : list (JSValue * Z)) :
  (exists items, tx = JArr items) \/ (exists props, tx = JObj props) ->
  payments_has tx m = false.
Proof.
  intros Hs. unfold payments_has. induction m as [|[k v] m IH]; cbn; [reflexivity|].
  rewrite IH, orb_false_r. destruct Hs as [[? ->]|[? ->]]; now destruct k.
Qed.

(** X6. Replay protection does not reach a proof whose [txHash] is an
    array or an object. [payments] compares keys as [Map] does, an array
    or object by identity, and each request parses its header afresh: the
    proof is let through in every state, whatever was recorded before, and
    one more entry is appended every time. *)
Theorem structured_hash_never_refused (t : string) (v tx : JSValue) :
  JSON_parse t = Some v ->
  JS.get_opt v "txHash" = tx ->
  (exists items, tx = JArr items) \/ (exists props, tx = JObj props) ->
  forall ep now m, x402Middleware ep (Some t) now m = (Next, m ++ [(tx, now)]).
Proof.
  intros Hp Htx Hs ep now m. rewrite (gate_parsed ep t v now m Hp). cbv zeta.
  rewrite Htx, (structured_key_absent tx m Hs).
  rewrite (payments_set_fresh tx now m (structured_key_absent tx m Hs)).
  destruct Hs as [[? ->]|[? ->]]; reflexivity.
Qed.

End StateChanges.

(** A proof whose txHash is an array is let through although the same
    array text was recorded by an earlier request. *)
Lemma structured_hash_never_refused_witness :
  let t := "{" ++ Json.quoted "txHash" ++ ":[" ++ Json.quoted "0xabc" ++ "]}" in
  x402Middleware (H := sample_host) "verify/move" (Some t) 1767225601000
    [(JArr [JStr "0xabc"], 1767225600000)]
  = (Next, [(JArr [JStr "0xabc"], 1767225600000); (JArr [JStr "0xabc"], 1767225601000)]).
Proof.
  cbv zeta.
  apply (structured_hash_never_refused (H := sample_host)
           ("{" ++ Json.quoted "txHash" ++ ":[" ++ Json.quoted "0xabc" ++ "]}")
           (JObj [("txHash", JArr [JStr "0xabc"])]) (JArr [JStr "0xabc"])).
  - reflexivity.
  - reflexivity.
  - left. eexists. reflexivity.
Defined.

(* ===================================================================== *)
(** ** Further properties: receipt identifiers *)
(* ===================================================================== *)

Section Identifiers.

Context `{Host}.


(** No character of the string is a dash. *)
Fixpoint dashless (s : string) : bool :=
  match s with
  | EmptyString => true
  | String c r => negb (Ascii.eqb c "-") && dashless r
  end.

Lemma append_cons (c : ascii) (a b : string) : String c a ++ b = String c (a ++ b).
Proof. reflexivity. Qed.

Lemma remove_dashes_app (a b : string) :
  Str.remove_dashes (a ++ b) = Str.remove_dashes a ++ Str.remove_dashes b.
Proof.
  induction a as [|c a IH]; [reflexivity|].
  rewrite append_cons. cbn [Str.remove_dashes]. rewrite IH.
  now destruct (Ascii.eqb c "-").
Qed.

Lemma remove_dashes_dashless (s : string) :
  dashless s = true -> Str.remove_dashes s = s.
Proof.
  induction s as [|c s IH]; cbn [dashless Str.remove_dashes]; [reflexivity|].
  destruct (Ascii.eqb c "-"); cbn [negb andb]; [discriminate|].
  intros Hd. now rewrite (IH Hd).
Qed.

Lemma slice0_app (a b : string) : Str.slice0 (String.length a) (a ++ b) = a.
Proof.
  unfold Str.slice0. induction a as [|c a IH]; [now destruct b|].
  rewrite append_cons. cbn [String.length substring]. now rewrite IH.
Qed.

Lemma string_app_assoc (a b c : string) : (a ++ b) ++ c = a ++ b ++ c.
Proof.
  induction a as [|x a IH]; [reflexivity|]. rewrite !append_cons. now rewrite IH.
Qed.

Lemma string_app_length (a b : string) :
  String.length (a ++ b) = (String.length a + String.length b)%nat.
Proof.
  induction a as [|x a IH]; [reflexivity|].
  rewrite append_cons. cbn [String.length]. now rewrite IH.
Qed.

(** X7. The id of a receipt minted from a UUID in the layout 8-4-4-4-12 is
    the prefix dv_ followed by the first three groups of the UUID, in
    their order and without the dashes between them: 19 characters. The
    last two groups of the UUID do not reach the id, and the receipt is
    stored under that id. *)
Theorem receipt_id_shape (g1 g2 g3 g4 g5 : string) (timestamp : Z) (data : ReceiptData)
    (store : gmap string Receipt) :
  String.length g1 = 8%nat -> String.length g2 = 4%nat -> String.length g3 = 4%nat ->
  dashless g1 = true -> dashless g2 = true -> dashless g3 = true ->
  let uuid := g1 ++ "-" ++ g2 ++ "-" ++ g3 ++ "-" ++ g4 ++ "-" ++ g5 in
  let out := generateReceipt uuid timestamp data store in
  receipt_id (fst out) = "dv_" ++ g1 ++ g2 ++ g3
  /\ String.length (receipt_id (fst out)) = 19%nat
  /\ snd out !! ("dv_" ++ g1 ++ g2 ++ g3) = Some (fst out).
Proof.
  intros L1 L2 L3 D1 D2 D3. cbv zeta.
  assert (Hid : receipt_id
                  (fst (generateReceipt
                          (g1 ++ "-" ++ g2 ++ "-" ++ g3 ++ "-" ++ g4 ++ "-" ++ g5)
                          timestamp data store))
                = "dv_" ++ g1 ++ g2 ++ g3).
  { cbn [generateReceipt fst receipt_id]. f_equal.
    rewrite remove_dashes_app, (remove_dashes_dashless g1 D1).
    change ("-" ++ g2 ++ "-" ++ g3 ++ "-" ++ g4 ++ "-" ++ g5)
      with (String "-" (g2 ++ "-" ++ g3 ++ "-" ++ g4 ++ "-" ++ g5)).
    cbn [Str.remove_dashes Ascii.eqb Bool.eqb].
    rewrite remove_dashes_app, (remove_dashes_dashless g2 D2).
    change ("-" ++ g3 ++ "-" ++ g4 ++ "-" ++ g5)
      with (String "-" (g3 ++ "-" ++ g4 ++ "-" ++ g5)).
    cbn [Str.remove_dashes Ascii.eqb Bool.eqb].
    rewrite remove_dashes_app, (remove_dashes_dashless g3 D3).
    rewrite <- (string_app_assoc g2 g3), <- (string_app_assoc g1 (g2 ++ g3)).
    replace 16%nat with (String.length (g1 ++ g2 ++ g3))
      by (rewrite !string_app_length, L1, L2, L3; reflexivity).
    apply slice0_app. }
  split; [exact Hid|]. split.
  - rewrite Hid, !string_app_length, L1, L2, L3. reflexivity.
  - rewrite <- Hid. cbn [generateReceipt fst snd receipt_id]. apply lookup_insert_eq.
Qed.

(** X8. Minting overwrites on an id collision. When two requests are
    answered 200 and their receipts carry the same id (their UUIDs agree on
    the first 16 hexadecimal digits), the store holds the later receipt
    under that id, the earlier one is gone, and the number of receipts has
    not grown. *)
Theorem colliding_receipt_replaces (rq1 rq2 : Request) (st st1 st2 : State)
    (r1 r2 : Receipt) :
  endpoint_of (route rq1) <> None -> endpoint_of (route rq2) <> None ->
  handle rq1 st = (Ok r1, st1) ->
  handle rq2 st1 = (Ok r2, st2) ->
  receipt_id r1 = receipt_id r2 ->
  receipts st2 !! receipt_id r1 = Some r2
  /\ size (receipts st2) = size (receipts st1).
Proof.
  intros Hp1 Hp2 E1 E2 Hid.
  destruct (handle_receipts rq1 st) as [[_ Hno]|(r1' & _ & Hok1 & Hst1)];
    [exfalso; apply (Hno Hp1 r1); now rewrite E1|].
  destruct (handle_receipts rq2 st1) as [[_ Hno]|(r2' & _ & Hok2 & Hst2)];
    [exfalso; apply (Hno Hp2 r2); now rewrite E2|].
  rewrite E1 in Hok1, Hst1. rewrite E2 in Hok2, Hst2. cbn [fst snd] in *.
  injection Hok1 as <-. injection Hok2 as <-.
  rewrite Hst2, Hid. split; [apply lookup_insert_eq|].
  rewrite map_size_insert, Hst1, <- Hid. now rewrite lookup_insert_eq.
Qed.

End Identifiers.

(** The UUID 123e4567-e89b-42d3-a456-426614174000 gives the id
    dv_123e4567e89b42d3. *)
Lemma receipt_id_shape_witness :
  let data := {| data_type := "move_verification"; data_request := JNull;
                 data_result := JNull; data_price_paid := "0.001 USDC" |} in
  receipt_id (fst (generateReceipt (H := sample_host)
                     "123e4567-e89b-42d3-a456-426614174000" 1767225600001 data ∅))
  = "dv_123e4567e89b42d3".
Proof.
  cbv zeta.
  exact (proj1 (receipt_id_shape (H := sample_host)
                  "123e4567" "e89b" "42d3" "a456" "426614174000" 1767225600001
                  {| data_type := "move_verification"; data_request := JNull;
                     data_result := JNull; data_price_paid := "0.001 USDC" |}
                  ∅ eq_refl eq_refl eq_refl eq_refl eq_refl eq_refl)).
Defined.

(** Two video requests draw the same UUID for the id: the store ends with
    the receipt of the second one, and with one receipt. *)
Lemma colliding_receipt_replaces_witness :
  let e2 := {| now_gate := 1767225601000; now_mint := 1767225601001;
               uuid1 := "9b2f0c1e-7a3d-4e5f-8a6b-0c1d2e3f4a5b";
               uuid2 := "00112233-4455-4677-0000-000000000000" |} in
  let rq1 := Sample.request PostVerifyVideo (Some Sample.proof_signed)
               Sample.video_body Sample.env1 in
  let rq2 := Sample.request PostVerifyVideo (Some Sample.proof_signed)
               Sample.video_body_tango e2 in
  let out1 := handle (H := sample_host) rq1 initial_state in
  let out2 := handle (H := sample_host) rq2 (snd out1) in
  exists r1 r2,
    fst out1 = Ok r1 /\ fst out2 = Ok r2
    /\ receipts (snd out2) !! receipt_id r1 = Some r2
    /\ size (receipts (snd out2)) = size (receipts (snd out1)).
Proof.
  cbv zeta.
  set (e2 := {| now_gate := 1767225601000; now_mint := 1767225601001;
                uuid1 := "9b2f0c1e-7a3d-4e5f-8a6b-0c1d2e3f4a5b";
                uuid2 := "00112233-4455-4677-0000-000000000000" |}).
  set (rq1 := Sample.request PostVerifyVideo (Some Sample.proof_signed)
                Sample.video_body Sample.env1).
  set (rq2 := Sample.request PostVerifyVideo (Some Sample.proof_signed)
                Sample.video_body_tango e2).
  assert (H1 : exists r1, fst (handle (H := sample_host) rq1 initial_state) = Ok r1
                          /\ receipt_id r1 = "dv_0011223344554677").
  { eexists. split; reflexivity. }
  destruct H1 as (r1 & H1 & I1).
  assert (H2 : exists r2,
             fst (handle (H := sample_host) rq2
                    (snd (handle (H := sample_host) rq1 initial_state))) = Ok r2
             /\ receipt_id r2 = "dv_0011223344554677").
  { eexists. split; reflexivity. }
  destruct H2 as (r2 & H2 & I2).
  exists r1, r2. split; [exact H1|]. split; [exact H2|].
  apply (colliding_receipt_replaces (H := sample_host) rq1 rq2 initial_state).
  - discriminate.
  - discriminate.
  - rewrite <- H1. apply surjective_pairing.
  - rewrite <- H2. apply surjective_pairing.
  - now rewrite I1, I2.
Defined.

(* ===================================================================== *)
(** ** Further properties: the routes *)
(* ===================================================================== *)

Section Routes.

Context `{Host}.

Lemma body_fields (b x : JSValue) (k : string) :
  JS.get b k = Normal x -> forall k', JS.get b k' = Normal (JS.get_opt b k').
Proof.
  intros Hk k'. destruct (get_defined _ _ _ k' Hk) as [y Hy].
  now rewrite (get_opt_get _ _ _ Hy).
Qed.

Lemma member_nonempty (n : string) : In n DANCE_STYLES -> Str.nonempty n = true.
Proof.
  intros Hn. cbn in Hn. repeat (destruct Hn as [<-|Hn]; [reflexivity|]). contradiction.
Qed.

(** The validator returns [null] or one of [DANCE_STYLES], whatever it is
    given. *)
Lemma validateStyle_range (style validStyle : JSValue) :
  validateStyle style = Normal validStyle ->
  validStyle = JNull \/ exists n, validStyle = JStr n /\ In n DANCE_STYLES.
Proof.
  unfold validateStyle.
  destruct style; cbn [bind]; try discriminate;
    match goal with
    | |- Normal (if includes DANCE_STYLES ?v then _ else _) = _ -> _ =>
        destruct (includes DANCE_STYLES v) eqn:E
    end;
    intros Hv; injection Hv as <-; auto; try discriminate E.
  right. eexists. split; [reflexivity|]. now apply includes_In.
Qed.

Lemma style_or_other_range (style validStyle : JSValue) :
  style_or_other style = Normal validStyle ->
  validStyle = JNull \/ exists n, validStyle = JStr n /\ In n DANCE_STYLES.
Proof.
  unfold style_or_other. destruct (JS.truthy style); [apply validateStyle_range|].
  intros Hv. injection Hv as <-. right. exists "other". split; [reflexivity|].
  cbn. tauto.
Qed.

(** A truthy value that is not a string has no [toLowerCase]. *)
Lemma validateStyle_non_string (style : JSValue) :
  JS.truthy style = true -> (forall s, style <> JStr s) -> validateStyle style = Throw.
Proof.
  intros Ht Hs. destruct style; try discriminate Ht; try reflexivity.
  now elim (Hs s).
Qed.

(** X9. The move route past the gate, for a body with a non-empty style
    string and a truthy move name: the answer is Invalid Style, with the
    style as sent and the recognized styles, when the lower-cased and
    trimmed style is not recognized, and nothing is stored; otherwise the
    answer is a move_verification receipt, stored under its id, whose style
    is the lower-cased and trimmed one, a member of [DANCE_STYLES]. *)
Theorem move_route_outcome (e : Env) (b : JSValue) (store : gmap string Receipt)
    (s : string) :
  JS.get b "style" = Normal (JStr s) -> s <> "" ->
  JS.truthy (JS.get_opt b "move_name") = true ->
  (~ In (trim (toLowerCase s)) DANCE_STYLES
   /\ post_verify_move e b store = Normal (InvalidStyle (JStr s) DANCE_STYLES, store))
  \/ (In (trim (toLowerCase s)) DANCE_STYLES
      /\ exists receipt,
           post_verify_move e b store
           = Normal (Ok receipt, <[receipt_id receipt := receipt]> store)
           /\ recorded_style receipt = JStr (trim (toLowerCase s))
           /\ receipt_type receipt = "move_verification").
Proof.
  intros Hs Hne Hm. pose proof (body_fields _ _ _ Hs) as Hget.
  unfold post_verify_move. rewrite !Hget. cbn [bind].
  rewrite (get_opt_get _ _ _ Hs), Hm. cbn [JS.truthy].
  rewrite (nonempty_true s Hne). cbn [negb orb].
  rewrite validateStyle_string. cbn [bind].
  destruct (includes DANCE_STYLES (JStr (trim (toLowerCase s)))) eqn:E.
  - right. apply includes_In in E. split; [exact E|].
    cbn [JS.truthy]. rewrite (member_nonempty _ E). cbn [negb generateReceipt].
    match goal with
    | |- exists receipt, Normal (Ok ?r, _) = _ /\ _ => exists r
    end.
    split; [reflexivity|]. split; reflexivity.
  - left. split; [|reflexivity]. intros Hin. apply includes_In in Hin. congruence.
Qed.

(** X10. A handler throws, and the route answers with status 500, when the
    body is [undefined] or [null], and when the body passes the
    required-field check of the route but its style is a truthy value that
    is not a string (a number, [true], an array, an object). *)
Theorem handler_throws (r : Route) handler (e : Env) (b : JSValue)
    (store : gmap string Receipt) :
  handler_of r = Some handler ->
  (b = JUndefined \/ b = JNull -> handler e b store = Throw)
  /\ (forall style,
        JS.get b "style" = Normal style ->
        required_present r b = true ->
        JS.truthy style = true -> (forall s, style <> JStr s) ->
        handler e b store = Throw).
Proof.
  intros Hh. split.
  - intros [-> | ->]; destruct r; try discriminate Hh; injection Hh as <-; reflexivity.
  - intros style Hs Hr Ht Hn. pose proof (body_fields _ _ _ Hs) as Hget.
    pose proof (get_opt_get _ _ _ Hs) as Hstyle.
    destruct r; try discriminate Hh; injection Hh as <-; cbn [required_present] in Hr.
    + unfold post_verify_move. rewrite !Hget. cbn [bind].
      apply andb_true_iff in Hr as [-> ->]. cbn [negb orb].
      rewrite Hstyle. now rewrite (validateStyle_non_string style Ht Hn).
    + unfold post_verify_video. rewrite !Hget. cbn [bind].
      rewrite Hr, Hstyle. cbn [negb]. unfold style_or_other.
      now rewrite Ht, (validateStyle_non_string style Ht Hn).
    + unfold post_verify_choreography. rewrite !Hget. cbn [bind].
      apply orb_true_iff in Hr.
      assert (Hc : negb (JS.truthy (JS.get_opt b "video_url"))
                   && negb (JS.truthy (JS.get_opt b "moves")) = false).
      { destruct Hr as [-> | ->]; [reflexivity|apply andb_false_r]. }
      rewrite Hc, Hstyle. unfold style_or_other.
      now rewrite Ht, (validateStyle_non_string style Ht Hn).
    + unfold post_verify_attribution. rewrite !Hget. cbn [bind].
      apply andb_true_iff in Hr as [-> ->]. cbn [negb orb].
      rewrite Hstyle. unfold style_or_other.
      now rewrite Ht, (validateStyle_non_string style Ht Hn).
Qed.

End Routes.

(** The move route on the sample host: the style tango is refused and
    nothing is stored; the style KRUMP between spaces is recorded as
    krump. *)
Lemma move_route_outcome_witness :
  post_verify_move (H := sample_host) Sample.env1
    (JObj [("style", JStr "tango"); ("move_name", JStr "ocho")]) (∅ : gmap string Receipt)
  = Normal (InvalidStyle (JStr "tango") DANCE_STYLES, ∅)
  /\ exists receipt,
       post_verify_move (H := sample_host) Sample.env1
         (JObj [("style", JStr " KRUMP "); ("move_name", JStr "chest pop")])
         (∅ : gmap string Receipt)
       = Normal (Ok receipt, <[receipt_id receipt := receipt]> ∅)
       /\ recorded_style receipt = JStr "krump".
Proof.
  split.
  - destruct (move_route_outcome (H := sample_host) Sample.env1
                (JObj [("style", JStr "tango"); ("move_name", JStr "ocho")])
                (∅ : gmap string Receipt) "tango" eq_refl ltac:(discriminate) eq_refl)
      as [[_ E]|[Hin _]]; [exact E|].
    vm_compute in Hin. exfalso. intuition discriminate.
  - destruct (move_route_outcome (H := sample_host) Sample.env1
                (JObj [("style", JStr " KRUMP "); ("move_name", JStr "chest pop")])
                (∅ : gmap string Receipt) " KRUMP " eq_refl ltac:(discriminate) eq_refl)
      as [[Hn _]|[_ (receipt & E & Hs & _)]].
    + exfalso. apply Hn. vm_compute. auto.
    + exists receipt. split; [exact E|exact Hs].
Defined.

(** The video route throws on a [null] body, and on a body whose style is
    the number 5. *)
Lemma handler_throws_witness :
  post_verify_video (H := sample_host) Sample.env1 JNull (∅ : gmap string Receipt) = Throw
  /\ post_verify_video (H := sample_host) Sample.env1
       (JObj [ ("style", JNum (Number.of_Z 5));
               ("video_url", JStr "https://example.org/clip.mp4") ])
       (∅ : gmap string Receipt) = Throw.
Proof.
  split.
  - apply (proj1 (handler_throws (H := sample_host) PostVerifyVideo post_verify_video
                    Sample.env1 JNull (∅ : gmap string Receipt) eq_refl)).
    now right.
  - apply (proj2 (handler_throws (H := sample_host) PostVerifyVideo post_verify_video
                    Sample.env1
                    (JObj [ ("style", JNum (Number.of_Z 5));
                            ("video_url", JStr "https://example.org/clip.mp4") ])
                    (∅ : gmap string Receipt) eq_refl) (JNum (Number.of_Z 5)));
      [reflexivity|reflexivity|reflexivity|discriminate].
Defined.

Section Crashes.

Context `{Host}.

(** A 500 answer comes from a handler behind a gate that said [next]. *)
Lemma server_error_accepted (rq : Request) (st : State) :
  fst (handle rq st) = ServerError ->
  accepted rq st /\ receipts (snd (handle rq st)) = receipts st.
Proof.
  intros Hr. split.
  - destruct (endpoint_of (route rq)) as [ep|] eqn:E.
    + exists ep. split; [exact E|].
      destruct (handler_of_endpoint _ _ E) as [handler Hh].
      rewrite (handle_paid rq st ep handler E Hh) in Hr. unfold paid in Hr.
      destruct (x402Middleware_cases ep (header rq) (now_gate (env rq)) (payments st))
        as [G|[G|G]]; rewrite G in *; cbn [fst] in *; try discriminate Hr; reflexivity.
    + unfold handle in Hr. destruct (route rq); try discriminate E; try discriminate Hr.
      cbn in Hr. destruct (receipts st !! id); discriminate Hr.
  - destruct (handle_receipts rq st) as [[E _]|(receipt & _ & Hok & _)]; [exact E|].
    rewrite Hr in Hok. discriminate Hok.
Qed.

(** X11. A crash after the gate still costs the payment. When a request
    whose proof carries a non-empty [txHash] string is answered with
    status 500, the gate had let it through: the hash is recorded as used,
    no receipt is stored, and every later request with that hash is
    answered Invalid Payment. *)
Theorem crash_consumes_proof (s : string) (rq : Request) (st : State) :
  s <> "" -> presents rq s ->
  fst (handle rq st) = ServerError ->
  payments_has (JStr s) (payments (snd (handle rq st))) = true
  /\ receipts (snd (handle rq st)) = receipts st
  /\ forall rqs rq', presents rq' s ->
       fst (handle rq' (run rqs (snd (handle rq st)))) = PaymentInvalid.
Proof.
  intros Hs Hp Hr. destruct (server_error_accepted rq st Hr) as [Ha Hrec].
  pose proof (accepted_records s rq st Hs Hp Ha) as Hused.
  split; [exact Hused|]. split; [exact Hrec|].
  intros rqs rq' Hp'.
  erewrite recorded_refused; [reflexivity|exact Hs|exact Hp'|].
  now apply run_mono.
Qed.

(** No move of the table is named like a property of [Object.prototype]. *)
Lemma prototype_name_not_own (name : string) :
  In name Object_prototype_names -> own_move name knownMoves = None.
Proof.
  intros Hn. cbn in Hn. repeat (destruct Hn as [<-|Hn]; [reflexivity|]). contradiction.
Qed.

Lemma prototype_name_found (name : string) :
  In name Object_prototype_names ->
  existsb (String.eqb name) Object_prototype_names = true.
Proof.
  intros Hn. apply existsb_exists. exists name. split; [exact Hn|apply String.eqb_refl].
Qed.

(** X12. On the attribution route with the krump style, a move name whose
    lower-cased form is the name of a property that [knownMoves] inherits
    from [Object.prototype] (such as constructor or __proto__) makes the
    handler throw: the inherited value is truthy and has no [creator], so
    the call of [toLowerCase] on it fails, and the route answers with
    status 500 instead of recording the claim. *)
Theorem inherited_move_name_throws (e : Env) (b : JSValue) (store : gmap string Receipt)
    (s move : string) :
  JS.get b "style" = Normal (JStr s) -> s <> "" ->
  validateStyle (JStr s) = Normal (JStr "krump") ->
  JS.get b "move_name" = Normal (JStr move) -> move <> "" ->
  JS.truthy (JS.get_opt b "claimed_creator") = true ->
  In (toLowerCase move) Object_prototype_names ->
  post_verify_attribution e b store = Throw.
Proof.
  intros Hs Hne Hv Hm Hmne Hc Hin.
  assert (Hget : forall k, JS.get b k = Normal (JS.get_opt b k)).
  { intros k. destruct (get_defined _ _ _ k Hs) as [y Hy].
    now rewrite (get_opt_get _ _ _ Hy). }
  unfold post_verify_attribution. rewrite !Hget. cbn [bind].
  rewrite (get_opt_get _ _ _ Hs), (get_opt_get _ _ _ Hm), Hc.
  cbn [JS.truthy]. rewrite (nonempty_true move Hmne). cbn [negb orb].
  unfold style_or_other. cbn [JS.truthy]. rewrite (nonempty_true s Hne), Hv.
  cbn [bind]. unfold krump_lookup. cbn [is_string call_toLowerCase bind].
  change (String.eqb "krump" "krump") with true. cbv iota.
  now rewrite (prototype_name_not_own _ Hin), (prototype_name_found _ Hin).
Qed.

(** X13. The attribution route never reports likely_accurate on its own
    authority: a receipt carries that status only if the recorded style is
    krump, the lower-cased move name is a move of the table, and the
    claimed creator equals the creator of that entry up to letter case.
    Every other receipt of the route carries the status unverified. *)
Theorem likely_accurate_only_from_table (e : Env) (b : JSValue)
    (store store' : gmap string Receipt) (receipt : Receipt) :
  post_verify_attribution e b store = Normal (Ok receipt, store') ->
  (verification_status receipt = JStr "likely_accurate"
   /\ recorded_style receipt = JStr "krump"
   /\ exists move c creator era,
        JS.get b "move_name" = Normal (JStr move)
        /\ JS.get b "claimed_creator" = Normal (JStr c)
        /\ own_move (toLowerCase move) knownMoves = Some (creator, era)
        /\ toLowerCase creator = toLowerCase c)
  \/ verification_status receipt = JStr "unverified".
Proof.
  intros E0.
  assert (Hx : exists x, JS.get b "move_name" = Normal x).
  { destruct (JS.get b "move_name") as [x|] eqn:Hx; [eauto|].
    unfold post_verify_attribution in E0. rewrite Hx in E0. discriminate E0. }
  destruct Hx as [x Hx]. pose proof (body_fields _ _ _ Hx) as Hget. clear x Hx.
  revert E0. unfold post_verify_attribution. rewrite !Hget. cbn [bind].
  destruct (negb (JS.truthy (JS.get_opt b "move_name"))
            || negb (JS.truthy (JS.get_opt b "claimed_creator"))); [discriminate|].
  destruct (style_or_other (JS.get_opt b "style")) as [validStyle|]; cbn [bind];
    [|discriminate].
  unfold krump_lookup.
  destruct (is_string validStyle "krump") eqn:Ek; cbn [bind];
    [|intros E; injection E as <- _; right; unfold verification_status;
      cbn [receipt_result generateReceipt fst data_result]; reflexivity].
  destruct validStyle as [| | | |vs| |]; try discriminate Ek.
  cbn [is_string] in Ek. apply String.eqb_eq in Ek. subst vs.
  destruct (JS.get_opt b "move_name") as [| | | |move| |] eqn:Em;
    cbn [call_toLowerCase bind]; try discriminate.
  destruct (own_move (toLowerCase move) knownMoves) as [[creator era]|] eqn:Eo.
  - destruct (JS.get_opt b "claimed_creator") as [| | | |c| |] eqn:Ec;
      cbn [call_toLowerCase bind]; try discriminate.
    intros E. injection E as <- _.
    unfold verification_status, recorded_style.
    cbn [receipt_result receipt_request generateReceipt fst data_result data_request].
    destruct (String.eqb_spec (toLowerCase creator) (toLowerCase c)) as [Eq|Ne].
    + left. split; [reflexivity|]. split; [reflexivity|].
      exists move, c, creator, era. auto.
    + right. reflexivity.
  - destruct (existsb (String.eqb (toLowerCase move)) Object_prototype_names);
      cbn [bind]; [discriminate|].
    intros E. injection E as <- _. right. reflexivity.
Qed.

(** X14. Whatever a paid route records as the style of a receipt is
    [null] or one of [DANCE_STYLES]; on the move route it is always one of
    [DANCE_STYLES]. No receipt records a style as the caller spelled it. *)
Theorem recorded_style_is_recognized (r : Route) handler (e : Env) (b : JSValue)
    (store store' : gmap string Receipt) (receipt : Receipt) :
  handler_of r = Some handler ->
  handler e b store = Normal (Ok receipt, store') ->
  (exists n, recorded_style receipt = JStr n /\ In n DANCE_STYLES)
  \/ (r <> PostVerifyMove /\ recorded_style receipt = JNull).
Proof.
  intros Hh.
  destruct (JS.get b "style") as [x|] eqn:Hx;
    [|destruct r; try discriminate Hh; injection Hh as <-;
      unfold post_verify_move, post_verify_video, post_verify_choreography,
        post_verify_attribution;
      destruct b; try discriminate Hx; discriminate].
  pose proof (body_fields _ _ _ Hx) as Hget.
  destruct r; try discriminate Hh; injection Hh as <-.
  - unfold post_verify_move. rewrite !Hget. cbn [bind].
    destruct (negb (JS.truthy (JS.get_opt b "style"))
              || negb (JS.truthy (JS.get_opt b "move_name"))); [discriminate|].
    destruct (validateStyle (JS.get_opt b "style")) as [validStyle|] eqn:Ev; cbn [bind];
      [|discriminate].
    destruct (negb (JS.truthy validStyle)) eqn:Et; [discriminate|].
    intros E. injection E as <- _. unfold recorded_style. cbn.
    destruct (validateStyle_range _ _ Ev) as [->|Hn]; [discriminate Et|]. now left.
  - unfold post_verify_video. rewrite !Hget. cbn [bind].
    destruct (negb (JS.truthy (JS.get_opt b "video_url"))); [discriminate|].
    destruct (style_or_other (JS.get_opt b "style")) as [validStyle|] eqn:Ev; cbn [bind];
      [|discriminate].
    intros E. injection E as <- _. unfold recorded_style. cbn.
    destruct (style_or_other_range _ _ Ev) as [->|Hn]; [right|now left].
    split; [discriminate|reflexivity].
  - unfold post_verify_choreography. rewrite !Hget. cbn [bind].
    destruct (negb (JS.truthy (JS.get_opt b "video_url"))
              && negb (JS.truthy (JS.get_opt b "moves"))); [discriminate|].
    destruct (style_or_other (JS.get_opt b "style")) as [validStyle|] eqn:Ev; cbn [bind];
      [|discriminate].
    intros E. injection E as <- _. unfold recorded_style. cbn.
    destruct (style_or_other_range _ _ Ev) as [->|Hn]; [right|now left].
    split; [discriminate|reflexivity].
  - unfold post_verify_attribution. rewrite !Hget. cbn [bind].
    destruct (negb (JS.truthy (JS.get_opt b "move_name"))
              || negb (JS.truthy (JS.get_opt b "claimed_creator"))); [discriminate|].
    destruct (style_or_other (JS.get_opt b "style")) as [validStyle|] eqn:Ev; cbn [bind];
      [|discriminate].
    destruct (krump_lookup validStyle (JS.get_opt b "move_name")
                (JS.get_opt b "claimed_creator")) as [k|]; cbn [bind]; [|discriminate].
    intros E. injection E as <- _. unfold recorded_style. cbn.
    destruct (style_or_other_range _ _ Ev) as [->|Hn]; [right|now left].
    split; [discriminate|reflexivity].
Qed.

End Crashes.

(** The hash 0xabc arrives on the video route with the number 5 as style:
    the answer is a 500, the hash is recorded, and the retry with a valid
    body is answered Invalid Payment. *)
Lemma crash_consumes_proof_witness :
  let rq := Sample.request PostVerifyVideo (Some Sample.proof_abc)
              (JObj [ ("style", JNum (Number.of_Z 5));
                      ("video_url", JStr "https://example.org/clip.mp4") ]) Sample.env1 in
  let retry := Sample.request PostVerifyVideo (Some Sample.proof_abc)
                 Sample.video_body Sample.env2 in
  fst (handle (H := sample_host) rq initial_state) = ServerError
  /\ payments_has (JStr "0xabc") (payments (snd (handle (H := sample_host) rq initial_state)))
     = true
  /\ fst (handle (H := sample_host) retry
            (run (H := sample_host) [] (snd (handle (H := sample_host) rq initial_state))))
     = PaymentInvalid.
Proof.
  cbv zeta. split; [reflexivity|].
  assert (Hp : forall b e, presents (H := sample_host)
                 (Sample.request PostVerifyVideo (Some Sample.proof_abc) b e) "0xabc").
  { intros b e. exists "verify/video", Sample.proof_abc,
      (JObj [("txHash", JStr "0xabc"); ("signature", JStr "0xsig")]).
    repeat split; reflexivity. }
  destruct (crash_consumes_proof (H := sample_host) "0xabc"
              (Sample.request PostVerifyVideo (Some Sample.proof_abc)
                 (JObj [ ("style", JNum (Number.of_Z 5));
                         ("video_url", JStr "https://example.org/clip.mp4") ]) Sample.env1)
              initial_state ltac:(discriminate) (Hp _ _) eq_refl) as (E1 & _ & E3).
  split; [exact E1|]. exact (E3 [] _ (Hp _ _)).
Defined.

(** The move name Constructor with the krump style makes the attribution
    route throw. *)
Lemma inherited_move_name_throws_witness :
  post_verify_attribution (H := sample_host) Sample.env1
    (JObj [ ("move_name", JStr "Constructor"); ("style", JStr "krump");
            ("claimed_creator", JStr "Tight Eyez") ]) (∅ : gmap string Receipt)
  = Throw.
Proof.
  apply (inherited_move_name_throws (H := sample_host) Sample.env1
           (JObj [ ("move_name", JStr "Constructor"); ("style", JStr "krump");
                   ("claimed_creator", JStr "Tight Eyez") ])
           (∅ : gmap string Receipt) "krump" "Constructor");
    try reflexivity; try discriminate.
  vm_compute. auto.
Defined.

(** The claim that Tight Eyez created the chest pop is answered with a
    receipt, whose status is one of the two of the route. *)
Lemma likely_accurate_only_from_table_witness :
  exists receipt store',
    post_verify_attribution (H := sample_host) Sample.env1
      (JObj [ ("move_name", JStr "Chest Pop"); ("style", JStr "krump");
              ("claimed_creator", JStr "tight eyez") ]) (∅ : gmap string Receipt)
    = Normal (Ok receipt, store')
    /\ (verification_status receipt = JStr "likely_accurate"
        \/ verification_status receipt = JStr "unverified").
Proof.
  assert (Hr : exists receipt store',
             post_verify_attribution (H := sample_host) Sample.env1
               (JObj [ ("move_name", JStr "Chest Pop"); ("style", JStr "krump");
                       ("claimed_creator", JStr "tight eyez") ]) (∅ : gmap string Receipt)
             = Normal (Ok receipt, store')).
  { eexists _, _. reflexivity. }
  destruct Hr as (receipt & store' & Hr). exists receipt, store'. split; [exact Hr|].
  destruct (likely_accurate_only_from_table (H := sample_host) _ _ _ _ _ Hr)
    as [[E _]|E]; [now left|now right].
Defined.

(** The video route records the style tango as [null] or as a recognized
    style. *)
Lemma recorded_style_is_recognized_witness :
  exists receipt store',
    post_verify_video (H := sample_host) Sample.env1 Sample.video_body_tango
      (∅ : gmap string Receipt)
    = Normal (Ok receipt, store')
    /\ ((exists n, recorded_style receipt = JStr n /\ In n DANCE_STYLES)
        \/ recorded_style receipt = JNull).
Proof.
  assert (Hr : exists receipt store',
             post_verify_video (H := sample_host) Sample.env1 Sample.video_body_tango
               (∅ : gmap string Receipt)
             = Normal (Ok receipt, store')).
  { eexists _, _. reflexivity. }
  destruct Hr as (receipt & store' & Hr). exists receipt, store'. split; [exact Hr|].
  destruct (recorded_style_is_recognized (H := sample_host) PostVerifyVideo
              post_verify_video _ _ _ _ _ eq_refl Hr) as [E|[_ E]]; [now left|now right].
Defined.

(* ===================================================================== *)
(** ** Further properties: what the gate looks at *)
(* ===================================================================== *)

Section ProofShapes.

Context `{Host}.

Local Open Scope list_scope.

(** The keys of [payments] after [set] do not depend on the time. *)
Lemma payments_set_keys (k : JSValue) (t t' : Z) (m : list (JSValue * Z)) :
  map fst (payments_set k t m) = map fst (payments_set k t' m).
Proof.
  induction m as [|[k0 v0] m IH]; cbn [payments_set map fst]; [reflexivity|].
  destruct (JS.same_value_zero k0 k); cbn [map fst]; [reflexivity|now rewrite IH].
Qed.

(** The verdict of the middleware on a present header is a function of the
    header and of [payments]. *)
Lemma x402Middleware_verdict (ep ep' : string) (h : option string) (now now' : Z)
    (m : list (JSValue * Z)) :
  header_missing h = false ->
  fst (x402Middleware ep h now m) = fst (x402Middleware ep' h now' m)
  /\ map fst (snd (x402Middleware ep h now m))
     = map fst (snd (x402Middleware ep' h now' m)).
Proof.
  intros Hm. destruct h as [t|]; [|discriminate Hm].
  assert (Ht : t <> "") by (intros ->; discriminate Hm).
  destruct (JSON_parse t) as [v|] eqn:Hp.
  - rewrite !(gate_parsed _ t v _ m Hp). cbv zeta.
    destruct (negb (JS.truthy (JS.get_opt v "txHash"))
              && negb (JS.truthy (JS.get_opt v "signature"))); [auto|].
    destruct (JS.truthy (JS.get_opt v "txHash") && payments_has (JS.get_opt v "txHash") m);
      [auto|].
    destruct (JS.truthy (JS.get_opt v "txHash")); cbn [fst snd]; [|auto].
    split; [reflexivity|apply payments_set_keys].
  - rewrite !(gate_unparsed _ t _ m Ht Hp). auto.
Qed.

(** X15. A payment proof is not bound to a route, a price, a body or a
    time. Two requests to paid routes that carry the same non-empty proof
    header, served from the same state, are both let through or both
    refused, whatever routes, bodies and clocks they have, and they leave
    the same hashes recorded as used: a proof that opens the cheapest route
    opens the dearest one. *)
Theorem proof_not_bound_to_route (rq rq' : Request) (st : State) :
  header rq = header rq' -> header_missing (header rq) = false ->
  endpoint_of (route rq) <> None -> endpoint_of (route rq') <> None ->
  (accepted rq st <-> accepted rq' st)
  /\ map fst (payments (snd (handle rq st))) = map fst (payments (snd (handle rq' st))).
Proof.
  intros Hh Hm Hr Hr'.
  destruct (endpoint_of (route rq)) as [ep|] eqn:E; [clear Hr|now elim Hr].
  destruct (endpoint_of (route rq')) as [ep'|] eqn:E'; [clear Hr'|now elim Hr'].
  destruct (x402Middleware_verdict ep ep' (header rq) (now_gate (env rq))
              (now_gate (env rq')) (payments st) Hm) as [Hv Hk].
  split.
  - unfold accepted. rewrite E, E', <- Hh. split.
    + intros (ep0 & Hep0 & Ha). injection Hep0 as <-. exists ep'.
      split; [reflexivity|]. now rewrite <- Hv.
    + intros (ep0 & Hep0 & Ha). injection Hep0 as <-. exists ep.
      split; [reflexivity|]. now rewrite Hv.
  - rewrite (handle_payments rq st ep E), (handle_payments rq' st ep' E'), <- Hh.
    exact Hk.
Qed.

(** X16. A proof header that is JSON but not a JSON object (the texts
    null, true, a number, a string, an array) is always answered Invalid
    Payment, and nothing is recorded: [null] makes the property read throw,
    which is caught, and the other values have neither a [txHash] nor a
    [signature]. *)
Theorem non_object_proof_refused (t : string) (v : JSValue) :
  JSON_parse t = Some v -> (forall props, v <> JObj props) ->
  (forall ep now m, x402Middleware ep (Some t) now m = (Reject PaymentInvalid, m))
  /\ (forall rq st, endpoint_of (route rq) <> None -> header rq = Some t ->
        handle rq st = (PaymentInvalid, st)).
Proof.
  intros Hp Hv.
  assert (Hg : forall ep now m, x402Middleware ep (Some t) now m = (Reject PaymentInvalid, m)).
  { intros ep now m. rewrite (gate_parsed ep t v now m Hp).
    destruct v; try reflexivity. now elim (Hv props). }
  split; [exact Hg|].
  intros rq st Hr Hh. destruct (endpoint_of (route rq)) as [ep|] eqn:E; [|now elim Hr].
  erewrite handle_rejected; [|exact E|rewrite Hh; apply Hg]. now destruct st.
Qed.

(** A value that [Map] compares by value. *)
Definition primitive (v : JSValue) : bool :=
  match v with
  | JArr _ | JObj _ => false
  | _ => true
  end.

Lemma SFeqb_refl (x : spec_float) : x <> S754_nan -> SFeqb x x = true.
Proof.
  unfold SFeqb, SFcompare. destruct x as [s|s| |s m e]; try (now destruct s).
  - intros Hn. now elim Hn.
  - intros _. rewrite Z.compare_refl, Pos.compare_cont_refl. now destruct s.
Qed.

Lemma same_value_zero_refl (v : JSValue) :
  primitive v = true -> JS.same_value_zero v v = true.
Proof.
  destruct v as [| |b|x|s|items|props]; cbn; try reflexivity; try discriminate; intros _.
  - now destruct b.
  - unfold Number.same_value_zero. destruct x; try reflexivity; now apply SFeqb_refl.
  - apply String.eqb_refl.
Qed.

(** X17. Replay protection covers every [txHash] that is a truthy
    primitive, not only strings: a non-zero number and [true] are
    single-use as well. Once a request whose proof carries such a [txHash]
    has passed the gate, every later request to a paid route whose proof
    carries the same value is answered Invalid Payment and changes
    nothing. *)
Theorem primitive_hash_single_use (tx : JSValue) (t t' : string) (v v' : JSValue)
    (rq rq' : Request) (rqs : list Request) (st : State) :
  primitive tx = true -> JS.truthy tx = true ->
  JSON_parse t = Some v -> JS.get_opt v "txHash" = tx ->
  JSON_parse t' = Some v' -> JS.get_opt v' "txHash" = tx ->
  header rq = Some t -> accepted rq st ->
  header rq' = Some t' -> endpoint_of (route rq') <> None ->
  let st' := run rqs (snd (handle rq st)) in
  handle rq' st' = (PaymentInvalid, st').
Proof.
  intros Hprim Htruthy Hp Htx Hp' Htx' Hh (ep & Hep & Hacc) Hh' Hr'. cbv zeta.
  assert (Hrec : payments_has tx (payments (snd (handle rq st))) = true).
  { rewrite (handle_payments rq st ep Hep). revert Hacc.
    rewrite Hh, (gate_parsed ep t v _ _ Hp). cbv zeta. rewrite Htx, Htruthy.
    cbn [negb andb]. destruct (payments_has tx (payments st)); [discriminate|].
    intros _. cbn [snd]. apply payments_has_set_same. now apply same_value_zero_refl. }
  apply (run_mono _ rqs) in Hrec.
  destruct (endpoint_of (route rq')) as [ep'|] eqn:E'; [|now elim Hr'].
  erewrite handle_rejected;
    [|exact E'
     |rewrite Hh', (gate_parsed ep' t' v' _ _ Hp'); cbv zeta;
      rewrite Htx', Htruthy, Hrec; reflexivity].
  now destruct (run rqs (snd (handle rq st))).
Qed.

End ProofShapes.

(** A proof bought for the move route is let through on the choreography
    route, and leaves the same hash recorded. *)
Lemma proof_not_bound_to_route_witness :
  let rq := Sample.request PostVerifyMove (Some Sample.proof_abc)
              (JObj [("style", JStr "krump"); ("move_name", JStr "chest pop")])
              Sample.env1 in
  let rq' := Sample.request PostVerifyChoreography (Some Sample.proof_abc)
               Sample.video_body Sample.env2 in
  accepted (H := sample_host) rq' initial_state
  /\ map fst (payments (snd (handle (H := sample_host) rq initial_state)))
     = map fst (payments (snd (handle (H := sample_host) rq' initial_state))).
Proof.
  cbv zeta.
  destruct (proof_not_bound_to_route (H := sample_host)
              (Sample.request PostVerifyMove (Some Sample.proof_abc)
                 (JObj [("style", JStr "krump"); ("move_name", JStr "chest pop")])
                 Sample.env1)
              (Sample.request PostVerifyChoreography (Some Sample.proof_abc)
                 Sample.video_body Sample.env2)
              initial_state eq_refl eq_refl ltac:(discriminate) ltac:(discriminate))
    as [Ha Hk].
  split; [|exact Hk].
  apply (proj1 Ha). exists "verify/move". split; reflexivity.
Defined.

(** The header texts null and [1,2] are answered Invalid Payment. *)
Lemma non_object_proof_refused_witness :
  handle (H := sample_host)
    (Sample.request PostVerifyVideo (Some "null") Sample.video_body Sample.env1)
    initial_state
  = (PaymentInvalid, initial_state)
  /\ handle (H := sample_host)
       (Sample.request PostVerifyVideo (Some "[1,2]") Sample.video_body Sample.env1)
       initial_state
     = (PaymentInvalid, initial_state).
Proof.
  split.
  - apply (proj2 (non_object_proof_refused (H := sample_host) "null" JNull eq_refl
                    ltac:(discriminate)));
      [discriminate|reflexivity].
  - apply (proj2 (non_object_proof_refused (H := sample_host) "[1,2]"
                    (JArr [JNum (Number.of_Z 1); JNum (Number.of_Z 2)]) eq_refl
                    ltac:(discriminate)));
      [discriminate|reflexivity].
Defined.

(** The number 7 as [txHash]: accepted once on the video route, refused
    afterwards on the move route. *)
Lemma primitive_hash_single_use_witness :
  let t := "{" ++ Json.quoted "txHash" ++ ":7}" in
  let rq := Sample.request PostVerifyVideo (Some t) Sample.video_body Sample.env1 in
  let rq' := Sample.request PostVerifyMove (Some t)
               (JObj [("style", JStr "krump"); ("move_name", JStr "chest pop")])
               Sample.env2 in
  fst (handle (H := sample_host) rq'
         (run (H := sample_host) [] (snd (handle (H := sample_host) rq initial_state))))
  = PaymentInvalid.
Proof.
  cbv zeta.
  rewrite (primitive_hash_single_use (H := sample_host) (JNum (Number.of_Z 7))
             ("{" ++ Json.quoted "txHash" ++ ":7}") ("{" ++ Json.quoted "txHash" ++ ":7}")
             (JObj [("txHash", JNum (Number.of_Z 7))])
             (JObj [("txHash", JNum (Number.of_Z 7))])
             (Sample.request PostVerifyVideo (Some ("{" ++ Json.quoted "txHash" ++ ":7}"))
                Sample.video_body Sample.env1)
             (Sample.request PostVerifyMove (Some ("{" ++ Json.quoted "txHash" ++ ":7}"))
                (JObj [("style", JStr "krump"); ("move_name", JStr "chest pop")])
                Sample.env2)
             [] initial_state
             eq_refl eq_refl eq_refl eq_refl eq_refl eq_refl eq_refl
             (ex_intro _ "verify/video" (conj eq_refl eq_refl))
             eq_refl ltac:(discriminate)).
  reflexivity.
Defined.

(* ===================================================================== *)
(** ** Further properties: what the routes answer *)
(* ===================================================================== *)

Section Bodies.

Context `{Host}.

Local Open Scope list_scope.

Ltac body_step :=
  match goal with
  | |- context [bind (Normal _) _] => cbn [bind]
  | |- context [bind Throw _] => cbn [bind]
  | |- context [bind ?c _] => destruct c
  | |- context [let '(_, _) := ?p in _] => destruct p
  end.

(** Every field of a body that is not [undefined] or [null] can be read. *)
Lemma body_readable (b : JSValue) :
  b <> JUndefined -> b <> JNull -> forall k, JS.get b k = Normal (JS.get_opt b k).
Proof.
  intros Hu Hn k. unfold JS.get_opt. destruct b; try reflexivity; contradiction.
Qed.

(** Invalid Style is an answer of the move route alone, with the style as
    sent and the list [DANCE_STYLES]. *)
Lemma handler_invalid_style (r : Route) handler (e : Env) (b : JSValue)
    (store store' : gmap string Receipt) (style : JSValue) (valid_styles : list string) :
  handler_of r = Some handler ->
  handler e b store = Normal (InvalidStyle style valid_styles, store') ->
  r = PostVerifyMove /\ valid_styles = DANCE_STYLES
  /\ style = JS.get_opt b "style" /\ store' = store.
Proof.
  intros Hh.
  destruct (JS.get b "style") as [x|] eqn:Hx;
    [|destruct r; try discriminate Hh; injection Hh as <-;
      unfold post_verify_move, post_verify_video, post_verify_choreography,
        post_verify_attribution;
      destruct b; try discriminate Hx; discriminate].
  pose proof (body_fields _ _ _ Hx) as Hget.
  destruct r; try discriminate Hh; injection Hh as <-.
  - unfold post_verify_move. rewrite !Hget. cbn [bind].
    destruct (negb (JS.truthy (JS.get_opt b "style"))
              || negb (JS.truthy (JS.get_opt b "move_name"))); [discriminate|].
    destruct (validateStyle (JS.get_opt b "style")) as [validStyle|]; cbn [bind];
      [|discriminate].
    destruct (negb (JS.truthy validStyle)); [|discriminate].
    intros E. injection E as <- <- <-. auto.
  - unfold post_verify_video. rewrite !Hget. cbn [bind].
    destruct (negb (JS.truthy (JS.get_opt b "video_url"))); [discriminate|].
    repeat body_step; discriminate.
  - unfold post_verify_choreography. rewrite !Hget. cbn [bind].
    destruct (negb (JS.truthy (JS.get_opt b "video_url"))
              && negb (JS.truthy (JS.get_opt b "moves"))); [discriminate|].
    repeat body_step; discriminate.
  - unfold post_verify_attribution. rewrite !Hget. cbn [bind].
    destruct (negb (JS.truthy (JS.get_opt b "move_name"))
              || negb (JS.truthy (JS.get_opt b "claimed_creator"))); [discriminate|].
    repeat body_step; discriminate.
Qed.

(** X18. The required-field check. For a body that is not [undefined] or
    [null], a handler answers Bad Request exactly when a required field of
    its route is missing or falsy, and then it stores nothing and does not
    look at the style: the check comes before the style is validated. *)
Theorem missing_fields_bad_request (r : Route) handler (e : Env) (b : JSValue)
    (store : gmap string Receipt) :
  handler_of r = Some handler -> b <> JUndefined -> b <> JNull ->
  (required_present r b = false ->
     exists message, handler e b store = Normal (BadRequest message, store))
  /\ (required_present r b = true ->
      forall message store', handler e b store <> Normal (BadRequest message, store')).
Proof.
  intros Hh Hu Hn. pose proof (body_readable b Hu Hn) as Hget.
  destruct r; try discriminate Hh; injection Hh as <-; cbn [required_present]; split;
    intros Hr.
  - unfold post_verify_move. rewrite !Hget. cbn [bind].
    rewrite <- negb_andb, Hr. cbn [negb]. eauto.
  - intros message store'. unfold post_verify_move. rewrite !Hget. cbn [bind].
    rewrite <- negb_andb, Hr. cbn [negb].
    destruct (validateStyle (JS.get_opt b "style")) as [validStyle|]; cbn [bind];
      [|discriminate].
    destruct (negb (JS.truthy validStyle)); discriminate.
  - unfold post_verify_video. rewrite !Hget. cbn [bind]. rewrite Hr. cbn [negb]. eauto.
  - intros message store'. unfold post_verify_video. rewrite !Hget. cbn [bind].
    rewrite Hr. cbn [negb]. repeat body_step; discriminate.
  - unfold post_verify_choreography. rewrite !Hget. cbn [bind].
    rewrite <- negb_orb, Hr. cbn [negb]. eauto.
  - intros message store'. unfold post_verify_choreography. rewrite !Hget. cbn [bind].
    rewrite <- negb_orb, Hr. cbn [negb]. repeat body_step; discriminate.
  - unfold post_verify_attribution. rewrite !Hget. cbn [bind].
    rewrite <- negb_andb, Hr. cbn [negb]. eauto.
  - intros message store'. unfold post_verify_attribution. rewrite !Hget. cbn [bind].
    rewrite <- negb_andb, Hr. cbn [negb]. repeat body_step; discriminate.
Qed.

(** The list that comes with an Invalid Style answer is [DANCE_STYLES]. *)
Lemma handle_invalid_style (rq : Request) (st : State) (style : JSValue)
    (valid_styles : list string) :
  fst (handle rq st) = InvalidStyle style valid_styles -> valid_styles = DANCE_STYLES.
Proof.
  intros Hr. destruct (endpoint_of (route rq)) as [ep|] eqn:E.
  - destruct (handler_of_endpoint _ _ E) as [handler Hh].
    rewrite (handle_paid rq st ep handler E Hh) in Hr. unfold paid in Hr.
    destruct (x402Middleware_cases ep (header rq) (now_gate (env rq)) (payments st))
      as [G|[G|G]]; rewrite G in Hr; cbn [fst] in Hr; try discriminate Hr.
    destruct (handler (env rq) (body rq) (receipts st)) as [[resp store']|] eqn:Eh;
      cbn [fst] in Hr; [|discriminate Hr]. subst resp.
    now destruct (handler_invalid_style _ _ _ _ _ _ _ _ Hh Eh) as (_ & -> & _).
  - unfold handle in Hr. destruct (route rq); try discriminate E; try discriminate Hr.
    cbn in Hr. destruct (receipts st !! id); discriminate Hr.
Qed.

(** X19. The styles the service announces are the styles it accepts. Every
    style in the list of GET /styles, and every style in the [valid_styles]
    of an Invalid Style answer, sent as it is listed to the move route with
    a move name, gets a receipt that records that style. *)
Theorem advertised_styles_accepted (rq : Request) (st : State) (styles : list string)
    (n : string) (e : Env) (b : JSValue) (store : gmap string Receipt) :
  (exists count, fst (handle rq st) = Styles styles count)
  \/ (exists style, fst (handle rq st) = InvalidStyle style styles) ->
  In n styles ->
  JS.get b "style" = Normal (JStr n) ->
  JS.truthy (JS.get_opt b "move_name") = true ->
  exists receipt,
    post_verify_move e b store = Normal (Ok receipt, <[receipt_id receipt := receipt]> store)
    /\ recorded_style receipt = JStr n.
Proof.
  intros Hs Hn Hstyle Hm.
  assert (Hd : styles = DANCE_STYLES).
  { destruct Hs as [[count Hs]|[style Hs]]; [|now apply handle_invalid_style in Hs].
    destruct (endpoint_of (route rq)) as [ep|] eqn:E.
    - exfalso. destruct (handler_of_endpoint _ _ E) as [handler Hh].
      rewrite (handle_paid rq st ep handler E Hh) in Hs. unfold paid in Hs.
      destruct (x402Middleware_cases ep (header rq) (now_gate (env rq)) (payments st))
        as [G|[G|G]]; rewrite G in Hs; cbn [fst] in Hs; try discriminate Hs.
      destruct (handler (env rq) (body rq) (receipts st)) as [[resp store']|] eqn:Eh;
        cbn [fst] in Hs; [|discriminate Hs]. subst resp.
      destruct (handler_answers _ _ _ _ _ _ _ Hh Eh) as [[? E0]|[[? E0]|(? & ? & E0)]];
        discriminate E0.
    - unfold handle in Hs. destruct (route rq); try discriminate E; try discriminate Hs.
      + cbn in Hs. now injection Hs as <- _.
      + cbn in Hs. destruct (receipts st !! id); discriminate Hs. }
  subst styles. pose proof (body_fields _ _ _ Hstyle) as Hget.
  unfold post_verify_move. rewrite !Hget. cbn [bind].
  rewrite (get_opt_get _ _ _ Hstyle), Hm. cbn [JS.truthy].
  rewrite (member_nonempty n Hn). cbn [negb orb].
  rewrite (validateStyle_member n Hn). cbn [bind JS.truthy].
  rewrite (member_nonempty n Hn). cbn [negb generateReceipt].
  match goal with
  | |- exists receipt, Normal (Ok ?r, _) = _ /\ _ => exists r
  end.
  split; reflexivity.
Qed.



(** A request that can lead to a receipt: a paid route, with a non-empty
    proof header. *)
Definition can_mint (rq : Request) : bool :=
  match endpoint_of (route rq) with
  | Some _ => negb (header_missing (header rq))
  | None => false
  end.

Lemma handle_cannot_mint (rq : Request) (st : State) :
  can_mint rq = false -> receipts (snd (handle rq st)) = receipts st.
Proof.
  unfold can_mint. intros Hc.
  destruct (handle_receipts rq st) as [[E _]|(receipt & Hp & Hok & _)]; [exact E|].
  exfalso. destruct (endpoint_of (route rq)) as [ep|] eqn:E; [|now elim Hp].
  apply negb_false_iff in Hc.
  destruct (handler_of_endpoint _ _ E) as [handler Hh].
  rewrite (handle_paid rq st ep handler E Hh) in Hok. unfold paid, x402Middleware in Hok.
  rewrite Hc in Hok. discriminate Hok.
Qed.

Lemma handle_mints_one (rq : Request) (st : State) :
  (size (receipts (snd (handle rq st)))
   <= size (receipts st) + (if can_mint rq then 1 else 0))%nat.
Proof.
  destruct (can_mint rq) eqn:Hc; [|rewrite (handle_cannot_mint rq st Hc); lia].
  destruct (handle_receipts rq st) as [[-> _]|(receipt & _ & _ & ->)]; [lia|].
  rewrite map_size_insert. destruct (receipts st !! receipt_id receipt); cbn; lia.
Qed.

Lemma run_mints (rqs : list Request) (st : State) :
  (size (receipts (run rqs st))
   <= size (receipts st) + List.length (List.filter can_mint rqs))%nat.
Proof.
  revert st. induction rqs as [|rq rqs IH]; cbn [run]; intros st; [cbn; lia|].
  specialize (IH (snd (handle rq st))). pose proof (handle_mints_one rq st) as H1.
  cbn [List.filter]. destruct (can_mint rq); cbn [List.length]; lia.
Qed.

(** X21. The number of receipts that GET /health reports is at most the
    number of requests served so far that went to a paid route with a
    non-empty proof header: free routes and requests without a proof never
    add a receipt, and a paid request adds at most one. *)
Theorem receipts_issued_bound (rqs : list Request) (e : Env) (h : option string)
    (b : JSValue) (n : nat) :
  fst (handle {| route := GetHealth; header := h; body := b; env := e |}
         (run rqs initial_state)) = Health n ->
  (n <= List.length (List.filter can_mint rqs))%nat.
Proof.
  unfold handle. cbn [route fst]. intros E. injection E as <-.
  pose proof (run_mints rqs initial_state) as Hb.
  cbn [receipts initial_state] in Hb. rewrite map_size_empty in Hb. lia.
Qed.

End Bodies.

(** On the move route a body with the number 5 as style and no move name
    is answered Bad Request: the style is not looked at. *)
Lemma missing_fields_bad_request_witness :
  exists message,
    post_verify_move (H := sample_host) Sample.env1
      (JObj [("style", JNum (Number.of_Z 5))]) (∅ : gmap string Receipt)
    = Normal (BadRequest message, ∅).
Proof.
  apply (proj1 (missing_fields_bad_request (H := sample_host) PostVerifyMove
                  post_verify_move Sample.env1 (JObj [("style", JNum (Number.of_Z 5))])
                  (∅ : gmap string Receipt) eq_refl ltac:(discriminate)
                  ltac:(discriminate))).
  reflexivity.
Defined.

(** The style hip-hop of the list of GET /styles is recorded by the move
    route. *)
Lemma advertised_styles_accepted_witness :
  exists receipt,
    post_verify_move (H := sample_host) Sample.env1
      (JObj [("style", JStr "hip-hop"); ("move_name", JStr "bounce")])
      (∅ : gmap string Receipt)
    = Normal (Ok receipt, <[receipt_id receipt := receipt]> ∅)
    /\ recorded_style receipt = JStr "hip-hop".
Proof.
  apply (advertised_styles_accepted (H := sample_host)
           (Sample.request GetStyles None JUndefined Sample.env1) initial_state
           DANCE_STYLES "hip-hop").
  - left. exists 20%nat. reflexivity.
  - cbn. tauto.
  - reflexivity.
  - reflexivity.
Defined.


(** After a request without a proof, a paid video request and a free
    request, GET /health reports at most one receipt. *)
Lemma receipts_issued_bound_witness :
  let rqs := [ Sample.request PostVerifyMove None JNull Sample.env1;
               Sample.request PostVerifyVideo (Some Sample.proof_signed)
                 Sample.video_body Sample.env1;
               Sample.request GetStyles None JUndefined Sample.env2 ] in
  exists n,
    fst (handle (H := sample_host) (Sample.request GetHealth None JUndefined Sample.env2)
           (run (H := sample_host) rqs initial_state)) = Health n
    /\ (n <= 1)%nat.
Proof.
  cbv zeta. eexists. split; [reflexivity|].
  exact (receipts_issued_bound (H := sample_host)
           [ Sample.request PostVerifyMove None JNull Sample.env1;
             Sample.request PostVerifyVideo (Some Sample.proof_signed)
               Sample.video_body Sample.env1;
             Sample.request GetStyles None JUndefined Sample.env2 ]
           Sample.env2 None JUndefined _ eq_refl).
Defined.
